(** * walletwise: the MCP dispatch server (mcp-server.ts, index.ts)

    A shallow embedding of [createMcpServer] and of the request loop of
    [index.ts], with the part of the JavaScript run time the dispatcher
    relies on: property access, string conversion, [JSON.stringify], the
    [http.ServerResponse] object and exceptions.

    Conventions.
    - A JavaScript string is a Rocq [string] (its UTF-8 text); strings with
      unpaired surrogates are outside the model.
    - A Number is kept as its canonical decimal text ([Number::toString]):
      the dispatcher never computes with numbers, it only prints them.
    - Values are the primitives, arrays and plain objects.  Functions,
      symbols, cyclic structures, accessors and objects with a modified
      prototype are outside the model.
    - An [await]ed promise is modelled by its settlement; a promise that
      never settles is outside the model.  Requests are handled one after
      the other.
    - The tools act on an environment of their own (clock, random source,
      network, their variables); as in index.ts, where the array of tools
      is built in the call of [createMcpServer], they hold no reference
      to that array. *)

From Stdlib Require Import ZArith Ascii String DecimalString.
From stdpp Require Import base option list strings gmap.

Local Open Scope string_scope.

(** ** JavaScript values *)

Module JS.

#[warnings="-register-all"]
Inductive JsValue : Type :=
| JUndefined
| JNull
| JBool (b : bool)
| JNumber (repr : string)
| JBigInt (z : Z)
| JString (s : string)
| JArray (elems : list JsValue)
| JObject (props : list (string * JsValue)).

(** What a [throw] carries: an instance of [Error] (with its [name] and
    [message]) or any other value. *)
Inductive Thrown : Type :=
| ErrorObject (name message : string)
| ThrownValue (v : JsValue).

Inductive Completion (A : Type) : Type :=
| Normal (a : A)
| Throw (e : Thrown).
Arguments Normal {A} a.
Arguments Throw {A} e.

Definition TypeError (message : string) : Thrown := ErrorObject "TypeError" message.

Definition cbind {A B} (c : Completion A) (k : A -> Completion B) : Completion B :=
  match c with
  | Normal a => k a
  | Throw e => Throw e
  end.

(** Own properties of a plain object, in enumeration order. *)
Fixpoint own_property (k : string) (props : list (string * JsValue)) : option JsValue :=
  match props with
  | [] => None
  | (k', v) :: rest => if String.eqb k k' then Some v else own_property k rest
  end.

(** [v.k] for a key [k] that no built-in prototype defines and that is
    neither an index nor [length] (the dispatcher reads [type],
    [tool_name] and [parameters]). *)
Definition Get (v : JsValue) (k : string) : Completion JsValue :=
  match v with
  | JUndefined =>
      Throw (TypeError ("Cannot read properties of undefined (reading '" +:+ k +:+ "')"))
  | JNull =>
      Throw (TypeError ("Cannot read properties of null (reading '" +:+ k +:+ "')"))
  | JObject props => Normal (default JUndefined (own_property k props))
  | _ => Normal JUndefined
  end.

(** [s === v] for a string [s]. *)
Definition strict_equals_string (s : string) (v : JsValue) : bool :=
  match v with
  | JString s' => String.eqb s s'
  | _ => false
  end.

Definition string_of_Z (z : Z) : string := NilZero.string_of_int (Z.to_int z).

(** [ToString], as a template literal and [String()] apply it.  An array
    joins its elements with commas, [null] and [undefined] elements giving
    the empty string.  A plain object answers through
    [Object.prototype.toString] unless an own property named [toString]
    shadows it: a data property is not callable, [valueOf] gives back the
    object, and the conversion throws. *)
Fixpoint ToString (v : JsValue) : Completion string :=
  match v with
  | JUndefined => Normal "undefined"
  | JNull => Normal "null"
  | JBool true => Normal "true"
  | JBool false => Normal "false"
  | JNumber repr => Normal repr
  | JBigInt z => Normal (string_of_Z z)
  | JString s => Normal s
  | JArray elems =>
      (fix join (l : list JsValue) : Completion string :=
         match l with
         | [] => Normal ""
         | x :: rest =>
             cbind (match x with
                    | JUndefined | JNull => Normal ""
                    | _ => ToString x
                    end)
               (fun s =>
                  match rest with
                  | [] => Normal s
                  | _ => cbind (join rest) (fun r => Normal (s +:+ "," +:+ r))
                  end)
         end) elems
  | JObject props =>
      match own_property "toString" props with
      | Some _ => Throw (TypeError "Cannot convert object to primitive value")
      | None => Normal "[object Object]"
      end
  end.

(** *** JSON.stringify *)

Definition hex_digit (n : N) : ascii :=
  ascii_of_N (if (n <? 10)%N then 48 + n else 87 + n)%N.

Definition dquote : ascii := ascii_of_N 34.
Definition backslash : ascii := ascii_of_N 92.

Definition escape_char (c : ascii) : string :=
  let n := N_of_ascii c in
  if (n =? 8)%N then "\b"
  else if (n =? 9)%N then "\t"
  else if (n =? 10)%N then "\n"
  else if (n =? 12)%N then "\f"
  else if (n =? 13)%N then "\r"
  else if (n =? 34)%N then String backslash (String dquote "")
  else if (n =? 92)%N then "\\"
  else if (n <? 32)%N then
    "\u00" +:+ String (hex_digit (n / 16)) (String (hex_digit (n mod 16)) "")
  else String c "".

Fixpoint escape_string (s : string) : string :=
  match s with
  | EmptyString => ""
  | String c rest => escape_char c +:+ escape_string rest
  end.

Definition QuoteJSONString (s : string) : string :=
  String dquote (escape_string s +:+ String dquote "").

Definition is_finite (repr : string) : bool :=
  negb (String.eqb repr "NaN" || String.eqb repr "Infinity" || String.eqb repr "-Infinity").

Fixpoint join_with (sep : string) (l : list string) : string :=
  match l with
  | [] => ""
  | [s] => s
  | s :: rest => s +:+ sep +:+ join_with sep rest
  end.

(** [SerializeJSONProperty]: [None] is the [undefined] that an
    [undefined] value serialises to (dropped from an object, [null] in an
    array); a BigInt throws. *)
Fixpoint SerializeJSONProperty (v : JsValue) : Completion (option string) :=
  match v with
  | JUndefined => Normal None
  | JNull => Normal (Some "null")
  | JBool true => Normal (Some "true")
  | JBool false => Normal (Some "false")
  | JNumber repr => Normal (Some (if is_finite repr then repr else "null"))
  | JBigInt _ => Throw (TypeError "Do not know how to serialize a BigInt")
  | JString s => Normal (Some (QuoteJSONString s))
  | JArray elems =>
      cbind
        ((fix items (l : list JsValue) : Completion (list string) :=
            match l with
            | [] => Normal []
            | x :: rest =>
                cbind (SerializeJSONProperty x) (fun o =>
                cbind (items rest) (fun r => Normal (default "null" o :: r)))
            end) elems)
        (fun parts => Normal (Some ("[" +:+ join_with "," parts +:+ "]")))
  | JObject props =>
      cbind
        ((fix members (l : list (string * JsValue)) : Completion (list string) :=
            match l with
            | [] => Normal []
            | (k, x) :: rest =>
                cbind (SerializeJSONProperty x) (fun o =>
                cbind (members rest) (fun r =>
                  Normal (match o with
                          | Some s => (QuoteJSONString k +:+ ":" +:+ s) :: r
                          | None => r
                          end)))
            end) props)
        (fun parts => Normal (Some ("{" +:+ join_with "," parts +:+ "}")))
  end.

Definition JSON_stringify (v : JsValue) : Completion (option string) :=
  SerializeJSONProperty v.

End JS.
Export JS.

(** Induction over values, through the lists nested in them. *)
Section JsValue_induction.

Variable P : JsValue -> Prop.
Hypothesis Hundefined : P JUndefined.
Hypothesis Hnull : P JNull.
Hypothesis Hbool : forall b, P (JBool b).
Hypothesis Hnumber : forall repr, P (JNumber repr).
Hypothesis Hbigint : forall z, P (JBigInt z).
Hypothesis Hstring : forall s, P (JString s).
Hypothesis Harray : forall elems, Forall P elems -> P (JArray elems).
Hypothesis Hobject : forall props, Forall (fun kv => P (snd kv)) props -> P (JObject props).

Fixpoint JsValue_nested_ind (v : JsValue) : P v :=
  match v with
  | JUndefined => Hundefined
  | JNull => Hnull
  | JBool b => Hbool b
  | JNumber repr => Hnumber repr
  | JBigInt z => Hbigint z
  | JString s => Hstring s
  | JArray elems =>
      Harray elems
        ((fix all (l : list JsValue) : Forall P l :=
            match l with
            | [] => List.Forall_nil P
            | x :: rest => List.Forall_cons P x rest (JsValue_nested_ind x) (all rest)
            end) elems)
  | JObject props =>
      Hobject props
        ((fix all (l : list (string * JsValue)) : Forall (fun kv => P (snd kv)) l :=
            match l with
            | [] => List.Forall_nil _
            | kv :: rest =>
                List.Forall_cons (fun kv => P (snd kv)) kv rest
                  (JsValue_nested_ind (snd kv)) (all rest)
            end) props)
  end.

End JsValue_induction.

(** ** A reference JSON decoder

    [JSON.parse] is a built-in: the dispatcher below takes the decoder as a
    parameter and every theorem holds for any decoder.  This one follows
    the JSON grammar (ECMA-404) and serves to run the dispatcher on
    concrete request bodies.  It is a lexer and a push-down recogniser,
    both total.  Numbers are printed from their exact decimal value, which
    is the Number's text whenever the literal is within double precision. *)

Module RefJSON.

Local Open Scope N_scope.

Inductive Token : Type :=
| TLBrace | TRBrace | TLBracket | TRBracket | TColon | TComma
| TStr (s : string)
| TNum (lit : string)
| TWord (w : string).

Definition code (c : ascii) : N := N_of_ascii c.

Definition is_ws (c : ascii) : bool :=
  (code c =? 32) || (code c =? 9) || (code c =? 10) || (code c =? 13).

Definition is_digit (c : ascii) : bool := (48 <=? code c) && (code c <=? 57).

Definition is_lower (c : ascii) : bool := (97 <=? code c) && (code c <=? 122).

Definition is_number_char (c : ascii) : bool :=
  is_digit c || (code c =? 45) || (code c =? 43) || (code c =? 46)
  || (code c =? 101) || (code c =? 69).

Definition hex_value (c : ascii) : option N :=
  let n := code c in
  if is_digit c then Some (n - 48)
  else if (97 <=? n) && (n <=? 102) then Some (n - 87)
  else if (65 <=? n) && (n <=? 70) then Some (n - 55)
  else None.

Definition byte (n : N) : string := String (ascii_of_N n) "".

Definition utf8_encode (n : N) : string :=
  if n <? 128 then byte n
  else if n <? 2048 then byte (192 + n / 64) +:+ byte (128 + n mod 64)
  else if n <? 65536 then
    byte (224 + n / 4096) +:+ byte (128 + (n / 64) mod 64) +:+ byte (128 + n mod 64)
  else
    byte (240 + n / 262144) +:+ byte (128 + (n / 4096) mod 64)
    +:+ byte (128 + (n / 64) mod 64) +:+ byte (128 + n mod 64).

Definition is_high_surrogate (u : N) : bool := (55296 <=? u) && (u <=? 56319).
Definition is_low_surrogate (u : N) : bool := (56320 <=? u) && (u <=? 57343).

(** The text read so far and a high surrogate waiting for its pair. *)
Definition flush (acc : string) (pend : option N) : string :=
  match pend with
  | Some h => acc +:+ utf8_encode h
  | None => acc
  end.

Inductive LexMode : Type :=
| LIdle
| LString (acc : string) (pend : option N)
| LEscape (acc : string) (pend : option N)
| LUnicode (acc : string) (pend : option N) (digits : list N)
| LNumber (lit : string)
| LWord (w : string).

Definition lex_idle (c : ascii) : option (LexMode * list Token) :=
  let n := code c in
  if is_ws c then Some (LIdle, [])
  else if n =? 123 then Some (LIdle, [TLBrace])
  else if n =? 125 then Some (LIdle, [TRBrace])
  else if n =? 91 then Some (LIdle, [TLBracket])
  else if n =? 93 then Some (LIdle, [TRBracket])
  else if n =? 58 then Some (LIdle, [TColon])
  else if n =? 44 then Some (LIdle, [TComma])
  else if n =? 34 then Some (LString "" None, [])
  else if is_digit c || (n =? 45) then Some (LNumber (String c ""), [])
  else if is_lower c then Some (LWord (String c ""), [])
  else None.

Definition unescape (c : ascii) : option string :=
  let n := code c in
  if (n =? 34) || (n =? 92) || (n =? 47) then Some (String c "")
  else if n =? 98 then Some (byte 8)
  else if n =? 102 then Some (byte 12)
  else if n =? 110 then Some (byte 10)
  else if n =? 114 then Some (byte 13)
  else if n =? 116 then Some (byte 9)
  else None.

Definition code_unit (digits : list N) : N :=
  fold_left (fun a d => 16 * a + d) digits 0.

Definition lex_unit (acc : string) (pend : option N) (u : N) : LexMode :=
  match pend with
  | Some h =>
      if is_low_surrogate u
      then LString (acc +:+ utf8_encode (65536 + (h - 55296) * 1024 + (u - 56320))) None
      else if is_high_surrogate u then LString (flush acc pend) (Some u)
      else LString (flush acc pend +:+ utf8_encode u) None
  | None =>
      if is_high_surrogate u then LString acc (Some u)
      else LString (acc +:+ utf8_encode u) None
  end.

Definition lex_step (m : LexMode) (c : ascii) : option (LexMode * list Token) :=
  match m with
  | LIdle => lex_idle c
  | LString acc pend =>
      if code c =? 34 then Some (LIdle, [TStr (flush acc pend)])
      else if code c =? 92 then Some (LEscape acc pend, [])
      else if code c <? 32 then None
      else Some (LString (flush acc pend +:+ String c "") None, [])
  | LEscape acc pend =>
      if code c =? 117 then Some (LUnicode acc pend [], [])
      else match unescape c with
           | Some s => Some (LString (flush acc pend +:+ s) None, [])
           | None => None
           end
  | LUnicode acc pend digits =>
      match hex_value c with
      | Some d =>
          let digits' := (digits ++ [d])%list in
          if (length digits' =? 4)%nat
          then Some (lex_unit acc pend (code_unit digits'), [])
          else Some (LUnicode acc pend digits', [])
      | None => None
      end
  | LNumber lit =>
      if is_number_char c then Some (LNumber (lit +:+ String c ""), [])
      else match lex_idle c with
           | Some (m', toks) => Some (m', TNum lit :: toks)
           | None => None
           end
  | LWord w =>
      if is_lower c then Some (LWord (w +:+ String c ""), [])
      else match lex_idle c with
           | Some (m', toks) => Some (m', TWord w :: toks)
           | None => None
           end
  end.

Fixpoint lex_from (m : LexMode) (s : string) : option (list Token) :=
  match s with
  | EmptyString =>
      match m with
      | LIdle => Some []
      | LNumber lit => Some [TNum lit]
      | LWord w => Some [TWord w]
      | _ => None
      end
  | String c rest =>
      match lex_step m c with
      | Some (m', toks) =>
          match lex_from m' rest with
          | Some more => Some (toks ++ more)%list
          | None => None
          end
      | None => None
      end
  end.

Definition lex (s : string) : option (list Token) := lex_from LIdle s.

(** *** Number literals *)

Fixpoint take_digits (s : string) : string * string :=
  match s with
  | String c rest =>
      if is_digit c
      then let '(ds, tl) := take_digits rest in (String c ds, tl)
      else ("", s)
  | EmptyString => ("", "")
  end.

Fixpoint digits_value (s : string) (a : Z) : Z :=
  match s with
  | String c rest => digits_value rest (10 * a + Z.of_N (code c - 48))%Z
  | EmptyString => a
  end.

Fixpoint strip_zeros (s : string) : string :=
  match s with
  | String c rest => if code c =? 48 then strip_zeros rest else s
  | EmptyString => ""
  end.

Definition strip_trailing_zeros (s : string) : string :=
  String.rev (strip_zeros (String.rev s)).

Fixpoint zeros (n : nat) : string :=
  match n with
  | O => ""
  | S k => String "0" (zeros k)
  end.

(** sign, integer part, fraction, exponent *)
Definition split_number (lit : string) : option (bool * string * string * Z) :=
  let '(neg, s1) := match lit with
                    | String c r => if code c =? 45 then (true, r) else (false, lit)
                    | _ => (false, lit)
                    end in
  let '(ip, s2) := take_digits s1 in
  let int_ok := match ip with
                | EmptyString => false
                | String c EmptyString => true
                | String c _ => negb (code c =? 48)
                end in
  if negb int_ok then None else
  let frac := match s2 with
              | String c r =>
                  if code c =? 46
                  then let '(fp, s3) := take_digits r in
                       match fp with EmptyString => None | _ => Some (fp, s3) end
                  else Some ("", s2)
              | EmptyString => Some ("", "")
              end in
  match frac with
  | None => None
  | Some (fp, s3) =>
      match s3 with
      | EmptyString => Some (neg, ip, fp, 0%Z)
      | String c r =>
          if (code c =? 101) || (code c =? 69) then
            let '(eneg, r') := match r with
                               | String d r1 =>
                                   if code d =? 45 then (true, r1)
                                   else if code d =? 43 then (false, r1)
                                   else (false, r)
                               | _ => (false, r)
                               end in
            let '(ep, s4) := take_digits r' in
            match ep, s4 with
            | String _ _, EmptyString =>
                let e := digits_value ep 0 in
                Some (neg, ip, fp, if eneg then (- e)%Z else e)
            | _, _ => None
            end
          else None
      end
  end.

(** [Number::toString] of the decimal with significant digits [ds] and
    value [0.ds * 10^n]. *)
Definition format_decimal (ds : string) (n : Z) : string :=
  let k := Z.of_nat (String.length ds) in
  if ((k <=? n) && (n <=? 21))%Z then ds +:+ zeros (Z.to_nat (n - k))
  else if ((0 <? n) && (n <=? 21))%Z then
    substring 0 (Z.to_nat n) ds +:+ "." +:+ substring (Z.to_nat n) (Z.to_nat (k - n)) ds
  else if ((-6 <? n) && (n <=? 0))%Z then "0." +:+ zeros (Z.to_nat (- n)) +:+ ds
  else
    let e := (n - 1)%Z in
    let exp := (if (e <? 0)%Z then "-" else "+") +:+ string_of_Z (Z.abs e) in
    match ds with
    | String d EmptyString => String d "" +:+ "e" +:+ exp
    | String d more => String d "" +:+ "." +:+ more +:+ "e" +:+ exp
    | EmptyString => "0"
    end.

Definition number_repr (lit : string) : option string :=
  match split_number lit with
  | None => None
  | Some (neg, ip, fp, e) =>
      let all := ip +:+ fp in
      let lead := strip_zeros all in
      let ds := strip_trailing_zeros lead in
      match ds with
      | EmptyString => Some "0"
      | _ =>
          let n := (Z.of_nat (String.length ip) + e
                    - Z.of_nat (String.length all - String.length lead))%Z in
          Some ((if neg then "-" else "") +:+ format_decimal ds n)
      end
  end.

(** *** Objects under construction *)

(** An array index is the canonical decimal of an integer below 2^32 - 1:
    such keys are enumerated first, in ascending order. *)
Definition array_index (k : string) : option Z :=
  let '(ds, tl) := take_digits k in
  match ds, tl with
  | String c more, EmptyString =>
      let v := digits_value ds 0 in
      if (match more with EmptyString => true | _ => negb (code c =? 48) end
          && (v <? 4294967295)%Z)%bool
      then Some v else None
  | _, _ => None
  end.

Fixpoint replace_property (k : string) (v : JsValue) (props : list (string * JsValue))
  : list (string * JsValue) :=
  match props with
  | [] => []
  | (k', v') :: rest =>
      if String.eqb k k' then (k, v) :: rest else (k', v') :: replace_property k v rest
  end.

Fixpoint insert_index (i : Z) (k : string) (v : JsValue) (props : list (string * JsValue))
  : list (string * JsValue) :=
  match props with
  | [] => [(k, v)]
  | (k', v') :: rest =>
      match array_index k' with
      | Some j => if (j <? i)%Z then (k', v') :: insert_index i k v rest
                  else (k, v) :: props
      | None => (k, v) :: props
      end
  end.

(** [CreateDataProperty]: a repeated key keeps its place and takes the new
    value. *)
Definition define_property (k : string) (v : JsValue) (props : list (string * JsValue))
  : list (string * JsValue) :=
  match own_property k props with
  | Some _ => replace_property k v props
  | None =>
      match array_index k with
      | Some i => insert_index i k v props
      | None => (props ++ [(k, v)])%list
      end
  end.

(** *** The recogniser *)

Inductive Frame : Type :=
| FArr (acc : list JsValue)
| FObjVal (props : list (string * JsValue)) (key : string)
| FObj (props : list (string * JsValue)).

Inductive PState : Type :=
| PValue (stack : list Frame)
| PFirst (stack : list Frame)
| PKey (first : bool) (props : list (string * JsValue)) (stack : list Frame)
| PColon (props : list (string * JsValue)) (key : string) (stack : list Frame)
| PNext (stack : list Frame)
| PDone (v : JsValue).

Definition deliver (v : JsValue) (stack : list Frame) : option PState :=
  match stack with
  | [] => Some (PDone v)
  | FArr acc :: st => Some (PNext (FArr (acc ++ [v]) :: st))
  | FObjVal props k :: st => Some (PNext (FObj (define_property k v props) :: st))
  | FObj _ :: _ => None
  end.

Definition word_value (w : string) : option JsValue :=
  if String.eqb w "true" then Some (JBool true)
  else if String.eqb w "false" then Some (JBool false)
  else if String.eqb w "null" then Some JNull
  else None.

Definition parse_value_token (stack : list Frame) (t : Token) : option PState :=
  match t with
  | TStr s => deliver (JString s) stack
  | TNum lit =>
      match number_repr lit with
      | Some r => deliver (JNumber r) stack
      | None => None
      end
  | TWord w =>
      match word_value w with
      | Some v => deliver v stack
      | None => None
      end
  | TLBracket => Some (PFirst stack)
  | TLBrace => Some (PKey true [] stack)
  | _ => None
  end.

Definition parse_step (st : PState) (t : Token) : option PState :=
  match st with
  | PValue stack => parse_value_token stack t
  | PFirst stack =>
      match t with
      | TRBracket => deliver (JArray []) stack
      | _ => parse_value_token (FArr [] :: stack) t
      end
  | PKey first props stack =>
      match t with
      | TStr k => Some (PColon props k stack)
      | TRBrace => if first then deliver (JObject props) stack else None
      | _ => None
      end
  | PColon props k stack =>
      match t with
      | TColon => Some (PValue (FObjVal props k :: stack))
      | _ => None
      end
  | PNext (FArr acc :: stack) =>
      match t with
      | TComma => Some (PValue (FArr acc :: stack))
      | TRBracket => deliver (JArray acc) stack
      | _ => None
      end
  | PNext (FObj props :: stack) =>
      match t with
      | TComma => Some (PKey false props stack)
      | TRBrace => deliver (JObject props) stack
      | _ => None
      end
  | PNext _ => None
  | PDone _ => None
  end.

Fixpoint parse_tokens (st : PState) (ts : list Token) : option PState :=
  match ts with
  | [] => Some st
  | t :: rest =>
      match parse_step st t with
      | Some st' => parse_tokens st' rest
      | None => None
      end
  end.

Definition SyntaxError : Thrown := ErrorObject "SyntaxError" "Unexpected token in JSON".

Definition JSON_parse (text : string) : Completion JsValue :=
  match lex text with
  | Some ts =>
      match parse_tokens (PValue []) ts with
      | Some (PDone v) => Normal v
      | _ => Throw SyntaxError
      end
  | None => Throw SyntaxError
  end.

End RefJSON.

(** ** node:http *)

Module Http.

(** A request as the handler sees it: [req.method] and the body stream,
    whose chunks are given by their [toString()] text.  [failure] is the
    error an aborted stream throws from the [for await] loop. *)
Record IncomingMessage : Type := {
  method : string;
  chunks : list string;
  failure : option Thrown
}.

Record ServerResponse : Type := {
  statusCode : Z;
  headers : gmap string string;
  writableEnded : bool;
  payload : string
}.

(** The response object a fresh request comes with. *)
Definition fresh_response : ServerResponse :=
  {| statusCode := 200; headers := ∅; writableEnded := false; payload := "" |}.

Definition ERR_HTTP_HEADERS_SENT : Thrown :=
  ErrorObject "Error" "Cannot set headers after they are sent to the client".

End Http.
Export Http.

(** ** The dispatcher (mcp-server.ts) and the request loop (index.ts) *)

Section Server.

(** What the tools act on: clock, random source, network, their own
    variables.  The dispatcher never looks at it. *)
Context {E : Type}.

Record McpTool : Type := {
  name : string;
  description : string;
  parameters : JsValue;
  execute : JsValue -> E -> Completion JsValue * E
}.

Record McpServerConfig : Type := {
  openaiApiKey : string;
  rpcUrl : string;
  solanaPrivateKey : string
}.

Record McpServerOptions : Type := {
  tools : list McpTool;
  config : McpServerConfig
}.

(** The closures [createMcpServer] returns share one captured variable,
    the [tools] array. *)
Record McpServer : Type := {
  registry : list McpTool
}.

Definition createMcpServer (options : McpServerOptions) : McpServer :=
  {| registry := tools options |}.

Definition PROTOCOL_VERSION : string := "0.1".

(** The process: the server, the environment of the tools, what
    [console.error] printed, and (ghost) the [execute] calls made so far. *)
Record Process : Type := {
  mcpServer : McpServer;
  world : E;
  console : list (string * Thrown);
  invoked : list (string * JsValue)
}.

Definition Store : Type := ServerResponse * Process.

(** Computations over the response object and the process, which may
    throw.  The store survives a throw. *)
Definition M (A : Type) : Type := Store -> Completion A * Store.

Definition ret {A} (a : A) : M A := fun st => (Normal a, st).

Definition bind {A B} (m : M A) (k : A -> M B) : M B :=
  fun st =>
    match m st with
    | (Normal a, st') => k a st'
    | (Throw e, st') => (Throw e, st')
    end.

Definition lift {A} (c : Completion A) : M A := fun st => (c, st).

Definition try_catch {A} (body : M A) (handler : Thrown -> M A) : M A :=
  fun st =>
    match body st with
    | (Normal a, st') => (Normal a, st')
    | (Throw e, st') => handler e st'
    end.

Notation "x <- m ;; k" := (bind m (fun x => k))
  (at level 100, m at next level, right associativity).
Notation "m ;; k" := (bind m (fun _ => k))
  (at level 100, right associativity).

Definition with_response (f : ServerResponse -> ServerResponse) : M unit :=
  fun '(res, p) => (Normal tt, (f res, p)).

(** [res.statusCode = code] *)
Definition set_statusCode (code : Z) : M unit :=
  with_response (fun res =>
    {| statusCode := code; headers := headers res;
       writableEnded := writableEnded res; payload := payload res |}).

(** [res.setHeader(key, value)] throws once the response has ended. *)
Definition res_setHeader (key value : string) : M unit :=
  fun '(res, p) =>
    if writableEnded res then (Throw ERR_HTTP_HEADERS_SENT, (res, p))
    else (Normal tt,
          ({| statusCode := statusCode res; headers := <[key := value]> (headers res);
              writableEnded := writableEnded res; payload := payload res |}, p)).

(** [res.end(data)]; [res.end()] and [res.end(undefined)] send no data,
    and a second call is ignored. *)
Definition res_end (data : option string) : M unit :=
  with_response (fun res =>
    if writableEnded res then res
    else {| statusCode := statusCode res; headers := headers res;
            writableEnded := true; payload := default "" data |}).

Definition console_error (label : string) (error : Thrown) : M unit :=
  fun '(res, p) =>
    (Normal tt,
     (res, {| mcpServer := mcpServer p; world := world p;
              console := console p ++ [(label, error)]; invoked := invoked p |})).

Definition get_tools : M (list McpTool) :=
  fun '(res, p) => (Normal (registry (mcpServer p)), (res, p)).

(** [await tool.execute(parameters)] *)
Definition call_execute (tool : McpTool) (params : JsValue) : M JsValue :=
  fun '(res, p) =>
    let '(outcome, w) := execute tool params (world p) in
    (outcome,
     (res, {| mcpServer := mcpServer p; world := w; console := console p;
              invoked := invoked p ++ [(name tool, params)] |})).

(** [for await (const chunk of req) body += chunk.toString()] *)
Definition body_text (req : IncomingMessage) : string :=
  foldl String.append "" (chunks req).

Definition read_body (req : IncomingMessage) : M string :=
  match failure req with
  | Some e => lift (Throw e)
  | None => ret (body_text req)
  end.

Definition error_envelope (message : string) : JsValue :=
  JObject [("error", JString message)].

Definition handleCapabilitiesRequest : M unit :=
  tools <- get_tools ;;
  let toolSchemas :=
    map (fun tool => JObject [("name", JString (name tool));
                              ("description", JString (description tool));
                              ("parameters", parameters tool)]) tools in
  let response :=
    JObject [("protocol_version", JString PROTOCOL_VERSION);
             ("capabilities", JObject [("tools", JArray toolSchemas)])] in
  set_statusCode 200 ;;
  res_setHeader "Content-Type" "application/json" ;;
  text <- lift (JSON_stringify response) ;;
  res_end text.

(** [error instanceof Error ? error.message : String(error)] *)
Definition error_text (error : Thrown) : Completion string :=
  match error with
  | ErrorObject _ message => Normal message
  | ThrownValue v => ToString v
  end.

(** [tools.find((t) => t.name === tool_name)] *)
Definition find_tool (tool_name : JsValue) (tools : list McpTool) : option McpTool :=
  find (fun t => strict_equals_string (name t) tool_name) tools.

(** The [try] block of [handleToolCallRequest] and its [catch]. *)
Definition invoke_tool (tool : McpTool) (tool_name params : JsValue) : M unit :=
  try_catch
    (result <- call_execute tool params ;;
     let response := JObject [("result", result)] in
     set_statusCode 200 ;;
     res_setHeader "Content-Type" "application/json" ;;
     text <- lift (JSON_stringify response) ;;
     res_end text)
    (fun error =>
       shown <- lift (ToString tool_name) ;;
       console_error ("Error executing tool " +:+ shown +:+ ":") error ;;
       set_statusCode 500 ;;
       shown <- lift (ToString tool_name) ;;
       message <- lift (error_text error) ;;
       text <- lift (JSON_stringify
                       (error_envelope
                          ("Error executing tool " +:+ shown +:+ ": " +:+ message))) ;;
       res_end text).

Definition handleToolCallRequest (request : JsValue) : M unit :=
  tool_name <- lift (Get request "tool_name") ;;
  params <- lift (Get request "parameters") ;;
  tools <- get_tools ;;
  match find_tool tool_name tools with
  | None =>
      set_statusCode 404 ;;
      shown <- lift (ToString tool_name) ;;
      text <- lift (JSON_stringify (error_envelope ("Tool not found: " +:+ shown))) ;;
      res_end text
  | Some tool => invoke_tool tool tool_name params
  end.

Variable JSON_parse : string -> Completion JsValue.

Definition handleRequest (req : IncomingMessage) : M unit :=
  res_setHeader "Access-Control-Allow-Origin" "*" ;;
  res_setHeader "Access-Control-Allow-Methods" "GET, POST, OPTIONS" ;;
  res_setHeader "Access-Control-Allow-Headers" "Content-Type" ;;
  if String.eqb (method req) "OPTIONS" then
    set_statusCode 204 ;;
    res_end None
  else if negb (String.eqb (method req) "POST") then
    set_statusCode 405 ;;
    text <- lift (JSON_stringify (error_envelope "Method not allowed")) ;;
    res_end text
  else
    body <- read_body req ;;
    try_catch
      (request <- lift (JSON_parse body) ;;
       ty <- lift (Get request "type") ;;
       if strict_equals_string "capabilities" ty then handleCapabilitiesRequest
       else if strict_equals_string "tool_call" ty then handleToolCallRequest request
       else
         set_statusCode 400 ;;
         shown <- lift (ToString ty) ;;
         text <- lift (JSON_stringify
                         (error_envelope ("Unknown request type: " +:+ shown))) ;;
         res_end text)
      (fun error =>
         console_error "Error processing request:" error ;;
         set_statusCode 400 ;;
         text <- lift (JSON_stringify (error_envelope "Invalid request")) ;;
         res_end text).

(** index.ts: the listener of the [request] event. *)
Definition onRequest (req : IncomingMessage) (p : Process)
  : Completion unit * Store :=
  try_catch (handleRequest req)
    (fun error =>
       console_error "Error handling request:" error ;;
       set_statusCode 500 ;;
       text <- lift (JSON_stringify (error_envelope "Internal server error")) ;;
       res_end text)
    (fresh_response, p).

(** Requests served one after the other, each with a fresh response. *)
Fixpoint serve (reqs : list IncomingMessage) (p : Process)
  : list ServerResponse * Process :=
  match reqs with
  | [] => ([], p)
  | req :: rest =>
      let '(_, (res, p')) := onRequest req p in
      let '(out, p'') := serve rest p' in
      (res :: out, p'')
  end.

(** index.ts [main]: the server is created once, with the tools. *)
Definition main (options : McpServerOptions) (w : E) : Process :=
  {| mcpServer := createMcpServer options; world := w; console := []; invoked := [] |}.

End Server.

Arguments McpTool : clear implicits.
Arguments McpServerOptions : clear implicits.
Arguments McpServer : clear implicits.
Arguments Process : clear implicits.
Arguments Store : clear implicits.
Arguments M : clear implicits.

(** ** The shapes of the responses *)

Definition quoted (s : string) : string := String dquote (s +:+ String dquote "").

(** The text of [{ error: message }]. *)
Definition json_error (message : string) : string :=
  "{" +:+ quoted "error" +:+ ":" +:+ QuoteJSONString message +:+ "}".

(** What a tool is advertised as. *)
Definition tool_schema {E} (tool : McpTool E) : JsValue :=
  JObject [("name", JString (name tool));
           ("description", JString (description tool));
           ("parameters", parameters tool)].

Definition cors_headers : gmap string string :=
  <["Access-Control-Allow-Headers" := "Content-Type"]>
    (<["Access-Control-Allow-Methods" := "GET, POST, OPTIONS"]>
       (<["Access-Control-Allow-Origin" := "*"]> ∅)).

Definition json_headers : gmap string string :=
  <["Content-Type" := "application/json"]> cors_headers.

Definition respond (code : Z) (hs : gmap string string) (body : string) : ServerResponse :=
  {| statusCode := code; headers := hs; writableEnded := true; payload := body |}.

Definition logged {E} (p : Process E) (label : string) (error : Thrown) : Process E :=
  {| mcpServer := mcpServer p; world := world p;
     console := console p ++ [(label, error)]; invoked := invoked p |}.

Definition called {E} (p : Process E) (tool : McpTool E) (params : JsValue) (w : E)
  : Process E :=
  {| mcpServer := mcpServer p; world := w; console := console p;
     invoked := invoked p ++ [(name tool, params)] |}.

(** [sub] occurs in [s]. *)
Definition contains (sub s : string) : Prop :=
  exists before after, s = before +:+ sub +:+ after.

(** No BigInt anywhere inside: what [JSON.stringify] needs in order not to
    throw. *)
Fixpoint serializable (v : JsValue) : bool :=
  match v with
  | JBigInt _ => false
  | JArray elems => forallb serializable elems
  | JObject props => forallb (fun kv => serializable (snd kv)) props
  | _ => true
  end.

(** ** What an outcome may depend on *)

Section Dependence.

Context {E : Type}.

(** How two environments are compared: as [eq] for tools that read their
    environment, as the full relation for tools that do not. *)
Variable same_world : E -> E -> Prop.

(** From environments that compare, [execute] settles alike and leaves
    environments that compare. *)
Definition tool_respects (t : McpTool E) : Prop :=
  forall (params : JsValue) (w w' : E),
    same_world w w' ->
    fst (execute t params w) = fst (execute t params w')
    /\ same_world (snd (execute t params w)) (snd (execute t params w')).

(** Two stores that differ in nothing the dispatcher may look at: console
    and call history are left out. *)
Definition alike (st st' : Store E) : Prop :=
  fst st = fst st'
  /\ mcpServer (snd st) = mcpServer (snd st')
  /\ same_world (world (snd st)) (world (snd st')).

(** A computation that, from stores alike, completes alike and leaves
    stores alike, and that leaves the server as it found it. *)
Definition respects {A} (m : M E A) : Prop :=
  forall st st' : Store E,
    alike st st' ->
    Forall tool_respects (registry (mcpServer (snd st))) ->
    fst (m st) = fst (m st')
    /\ alike (snd (m st)) (snd (m st'))
    /\ mcpServer (snd (snd (m st))) = mcpServer (snd st).

End Dependence.

(** A tool whose settlement is the same in every environment. *)
Definition env_independent {E} (t : McpTool E) : Prop :=
  tool_respects (fun _ _ => True) t.

(** The reading of "depends only on the request and the registry" that
    ignores the environment of the tools: the response to [req] is the
    same after any requests as before them. *)
Definition history_free {E} (parse : string -> Completion JsValue) (p : Process E) : Prop :=
  forall (reqs : list IncomingMessage) (req : IncomingMessage),
    fst (snd (onRequest parse req (snd (serve parse reqs p))))
    = fst (snd (onRequest parse req p)).

(** ** What becomes of the response *)

Section Progress.

Context {E A : Type}.

Definition open_response (st : Store E) : Prop := writableEnded (fst st) = false.

Definition sent (st : Store E) : Prop := writableEnded (fst st) = true.

(** [m] leaves an open response open, whether it returns or throws. *)
Definition keeps_open (m : M E A) : Prop :=
  forall st, open_response st -> open_response (snd (m st)).

(** [m] returns, and leaves an open response open. *)
Definition proceeds (m : M E A) : Prop :=
  forall st, open_response st ->
    exists a st', m st = (Normal a, st') /\ open_response st'.

(** [m] returns with the response sent, or throws with the response
    open. *)
Definition sends_or_throws (m : M E A) : Prop :=
  forall st, open_response st ->
    match m st with
    | (Normal _, st') => sent st'
    | (Throw _, st') => open_response st'
    end.

(** [m] returns with the response sent. *)
Definition answers (m : M E A) : Prop :=
  forall st, open_response st ->
    exists a st', m st = (Normal a, st') /\ sent st'.

End Progress.

(** ** Sample requests and tools *)

Module Samples.

Definition post (body : string) : IncomingMessage :=
  {| method := "POST"; chunks := [body]; failure := None |}.

(** The text of a value that has one. *)
Definition text_of (v : JsValue) : string :=
  match JSON_stringify v with
  | Normal (Some s) => s
  | _ => ""
  end.

Definition tool_call (tool_name params : JsValue) : JsValue :=
  JObject [("type", JString "tool_call"); ("tool_name", tool_name); ("parameters", params)].

Definition schema : JsValue :=
  JObject [("type", JString "object"); ("properties", JObject [])].

(** The tools act on a counter. *)
Definition echo : McpTool nat :=
  {| name := "echo"; description := "returns its input"; parameters := schema;
     execute := fun params n => (Normal params, n) |}.

Definition ticket : McpTool nat :=
  {| name := "ticket"; description := "hands out the next number"; parameters := schema;
     execute := fun _ n => (Normal (JNumber (string_of_Z (Z.of_nat n))), S n) |}.

Definition fetch_wallet_data : McpTool nat :=
  {| name := "fetch_wallet_data"; description := "rejects every address";
     parameters := schema;
     execute := fun _ n =>
       (Throw (ErrorObject "Error"
                 "Failed to fetch wallet data: Invalid Solana wallet address"), n) |}.

Definition balance : McpTool nat :=
  {| name := "balance"; description := "lamports of the wallet"; parameters := schema;
     execute := fun _ n => (Normal (JBigInt 5000000000), n) |}.

Definition transfer : McpTool nat :=
  {| name := "transfer"; description := "moves lamports";
     parameters := JObject [("type", JString "object"); ("maximum", JBigInt 18446744073709551615)];
     execute := fun _ n => (Normal JNull, n) |}.

Definition opaque_failure : McpTool nat :=
  {| name := "opaque"; description := "throws a plain object"; parameters := schema;
     execute := fun _ n => (Throw (ThrownValue (JObject [("toString", JNull)])), n) |}.

Definition shout : McpTool nat :=
  {| name := "echo"; description := "a second tool of the same name"; parameters := schema;
     execute := fun _ n => (Normal (JString "SHOUT"), n) |}.

Definition options (ts : list (McpTool nat)) : McpServerOptions nat :=
  {| tools := ts;
     config := {| openaiApiKey := "key"; rpcUrl := "http://localhost";
                  solanaPrivateKey := "secret" |} |}.

Definition booted (ts : list (McpTool nat)) : Process nat := main (options ts) 0.

Definition decode := RefJSON.JSON_parse.

Definition preflight : IncomingMessage :=
  {| method := "OPTIONS"; chunks := ["ignored"]; failure := None |}.

Definition aborted_get : IncomingMessage :=
  {| method := "GET"; chunks := []; failure := Some (ErrorObject "Error" "aborted") |}.

Definition capabilities_request : JsValue := JObject [("type", JString "capabilities")].

Definition ping : JsValue := JObject [("type", JString "ping")].

Definition x1 : JsValue := JObject [("x", JNumber "1")].

(** An object whose own [toString] is not a function. *)
Definition no_string_form : JsValue := JObject [("toString", JNull)].

(** The outcome of one request on a server just started with [ts]. *)
Definition outcome (ts : list (McpTool nat)) (body : string)
  : Completion unit * Store nat :=
  handleRequest decode (post body) (fresh_response, booted ts).

Definition status_of (o : Completion unit * Store nat) : Z := statusCode (fst (snd o)).

End Samples.

(** What [JSON.stringify] throws on a BigInt. *)
Definition bigint_error : Thrown := TypeError "Do not know how to serialize a BigInt".

(** ** The tools (src/fetch-wallet-data.ts, src/execute-actions.ts) *)

Module Tools.

(** What the tools of the repository read and write: the clock behind
    [Date.now()], the source behind
    [Math.floor(Math.random() * 1000000)], both as the sequence of the
    values they will give, and what the tools print. *)
Record Runtime : Type := {
  clock : nat -> Z;
  clock_reads : nat;
  dice : nat -> Z;
  dice_rolls : nat;
  stdout : list string;
  stderr : list (string * Thrown)
}.

(** The body of an [async] function of a tool. *)
Definition T (A : Type) : Type := Runtime -> Completion A * Runtime.

Definition tret {A} (a : A) : T A := fun rt => (Normal a, rt).

Definition tbind {A B} (m : T A) (k : A -> T B) : T B :=
  fun rt =>
    match m rt with
    | (Normal a, rt') => k a rt'
    | (Throw e, rt') => (Throw e, rt')
    end.

Definition tlift {A} (c : Completion A) : T A := fun rt => (c, rt).

Definition ttry {A} (body : T A) (handler : Thrown -> T A) : T A :=
  fun rt =>
    match body rt with
    | (Normal a, rt') => (Normal a, rt')
    | (Throw e, rt') => handler e rt'
    end.

Definition Date_now : T Z :=
  fun rt =>
    (Normal (clock rt (clock_reads rt)),
     {| clock := clock rt; clock_reads := S (clock_reads rt); dice := dice rt;
        dice_rolls := dice_rolls rt; stdout := stdout rt; stderr := stderr rt |}).

(** [Math.floor(Math.random() * 1000000)] *)
Definition random_million : T Z :=
  fun rt =>
    (Normal (dice rt (dice_rolls rt)),
     {| clock := clock rt; clock_reads := clock_reads rt; dice := dice rt;
        dice_rolls := S (dice_rolls rt); stdout := stdout rt; stderr := stderr rt |}).

Definition console_log (line : string) : T unit :=
  fun rt =>
    (Normal tt,
     {| clock := clock rt; clock_reads := clock_reads rt; dice := dice rt;
        dice_rolls := dice_rolls rt; stdout := stdout rt ++ [line]; stderr := stderr rt |}).

Definition tool_console_error (label : string) (error : Thrown) : T unit :=
  fun rt =>
    (Normal tt,
     {| clock := clock rt; clock_reads := clock_reads rt; dice := dice rt;
        dice_rolls := dice_rolls rt; stdout := stdout rt;
        stderr := stderr rt ++ [(label, error)] |}).

(** [const { k, ... } = v], for the first key of the pattern: the value
    must be neither [undefined] nor [null]; [source] is how the run time
    names it in the message. *)
Definition destructure (source : string) (v : JsValue) (k : string) : Completion JsValue :=
  match v with
  | JUndefined =>
      Throw (TypeError ("Cannot destructure property '" +:+ k +:+ "' of '" +:+ source
                        +:+ "' as it is undefined."))
  | JNull =>
      Throw (TypeError ("Cannot destructure property '" +:+ k +:+ "' of '" +:+ source
                        +:+ "' as it is null."))
  | _ => Get v k
  end.

(** The run time after a line was printed, after an error was reported. *)
Definition printed (rt : Runtime) (line : string) : Runtime :=
  {| clock := clock rt; clock_reads := clock_reads rt; dice := dice rt;
     dice_rolls := dice_rolls rt; stdout := stdout rt ++ [line]; stderr := stderr rt |}.

Definition complained (rt : Runtime) (label : string) (error : Thrown) : Runtime :=
  {| clock := clock rt; clock_reads := clock_reads rt; dice := dice rt;
     dice_rolls := dice_rolls rt; stdout := stdout rt;
     stderr := stderr rt ++ [(label, error)] |}.

(** *** The address pattern *)

(** [[1-9A-HJ-NP-Za-km-z]] *)
Definition address_class : list (ascii * ascii) :=
  [("1", "9"); ("A", "H"); ("J", "N"); ("P", "Z"); ("a", "k"); ("m", "z")]%char.

Definition in_class (ranges : list (ascii * ascii)) (c : ascii) : bool :=
  existsb (fun range =>
             (N_of_ascii (fst range) <=? N_of_ascii c)%N
             && (N_of_ascii c <=? N_of_ascii (snd range))%N) ranges.

Fixpoint all_in_class (ranges : list (ascii * ascii)) (s : string) : bool :=
  match s with
  | EmptyString => true
  | String c rest => in_class ranges c && all_in_class ranges rest
  end.

(** [/^[1-9A-HJ-NP-Za-km-z]{32,44}$/.test(s)] on a string *)
Definition address_pattern (s : string) : bool :=
  all_in_class address_class s
  && (32 <=? String.length s)%nat && (String.length s <=? 44)%nat.

(** [RegExp.prototype.test] converts its argument to a string first. *)
Definition test_address (address : JsValue) : Completion bool :=
  cbind (ToString address) (fun s => Normal (address_pattern s)).

(** The alphabet of base58: digits and letters without [0], [O], [I]
    and [l]. *)
Definition base58_alphabet : string :=
  "123456789ABCDEFGHJKLMNPQRSTUVWXYZabcdefghijkmnopqrstuvwxyz".

Fixpoint occurs (c : ascii) (s : string) : bool :=
  match s with
  | EmptyString => false
  | String c' rest => Ascii.eqb c c' || occurs c rest
  end.

(** *** src/fetch-wallet-data.ts *)

Definition token (symbol amount price change : string) : JsValue :=
  JObject [("symbol", JString symbol); ("amount", JNumber amount);
           ("price", JNumber price); ("priceChange24h", JNumber change)].

Definition nft (name collection value : string) : JsValue :=
  JObject [("name", JString name); ("collection", JString collection);
           ("estimatedValue", JNumber value)].

Definition stake (validator amount apy rewards : string) : JsValue :=
  JObject [("validator", JString validator); ("amount", JNumber amount);
           ("apy", JNumber apy); ("rewards", JNumber rewards)].

Definition MOCK_DATA : list (string * JsValue) :=
  [("tokens",
    JArray [token "SOL" "25.5" "150.75" "2.5";
            token "USDC" "1250" "1" "0";
            token "RAY" "100" "0.75" "-1.2";
            token "BONK" "1000000" "0.00002" "5.7"]);
   ("nfts",
    JArray [nft "DeGod #1234" "DeGods" "150";
            nft "Okay Bear #567" "Okay Bears" "80";
            nft "Solana Monkey #789" "SMB" "65"]);
   ("staking",
    JArray [stake "Lido" "10" "6.2" "0.15";
            stake "Marinade" "5" "6.5" "0.08"]);
   ("transactions",
    JArray [JObject [("type", JString "swap"); ("tokenIn", JString "SOL");
                     ("tokenOut", JString "USDC"); ("amount", JNumber "2");
                     ("priceUsd", JNumber "145.5");
                     ("timestamp", JString "2023-05-15T10:30:00Z");
                     ("program", JString "jupiter")];
            JObject [("type", JString "swap"); ("tokenIn", JString "USDC");
                     ("tokenOut", JString "RAY"); ("amount", JNumber "100");
                     ("priceUsd", JNumber "0.8");
                     ("timestamp", JString "2023-05-10T14:20:00Z");
                     ("program", JString "raydium")];
            JObject [("type", JString "stake"); ("token", JString "SOL");
                     ("amount", JNumber "5");
                     ("timestamp", JString "2023-04-20T09:15:00Z");
                     ("program", JString "marinade")];
            JObject [("type", JString "nft_purchase"); ("nft", JString "DeGod #1234");
                     ("price", JNumber "140");
                     ("timestamp", JString "2023-03-05T16:45:00Z");
                     ("program", JString "magiceden")]])].

Definition invalid_address : Thrown := ErrorObject "Error" "Invalid Solana wallet address".

(** [fetchWalletData]; the simulated delay is an [await] and leaves no
    trace. *)
Definition fetchWalletData (walletAddress : JsValue) : T JsValue :=
  tbind (tlift (test_address walletAddress)) (fun valid =>
  if negb valid then tlift (Throw invalid_address)
  else
    tbind (tlift (ToString walletAddress)) (fun shown =>
    tbind (console_log ("Fetching data for wallet: " +:+ shown)) (fun _ =>
    tret (JObject (MOCK_DATA ++ [("wallet_address", walletAddress)]))))).

(** The [catch] clause every tool ends with:
    [throw new Error(`<prefix>: ${error instanceof Error ? error.message : String(error)}`)]
    after [console.error(label, error)]. *)
Definition rethrow (label prefix : string) (error : Thrown) : T JsValue :=
  tbind (tool_console_error label error) (fun _ =>
  tbind (tlift (error_text error)) (fun message =>
  tlift (Throw (ErrorObject "Error" (prefix +:+ ": " +:+ message))))).

Definition address_schema (what : string) : JsValue :=
  JObject [("type", JString "string"); ("description", JString what)].

(** The arrow function's parameter pattern is bound before its [try]
    statement is entered. *)
Definition fetchWalletDataTool : McpTool Runtime :=
  {| name := "fetch_wallet_data";
     description :=
       "Fetches comprehensive data about a Solana wallet including tokens, NFTs, "
       +:+ "staking positions, and transaction history";
     parameters :=
       JObject [("type", JString "object");
                ("properties",
                 JObject [("wallet_address",
                           address_schema "The Solana wallet address to fetch data for")]);
                ("required", JArray [JString "wallet_address"])];
     execute := fun params =>
       tbind (tlift (destructure "undefined" params "wallet_address")) (fun wallet_address =>
       ttry (fetchWalletData wallet_address)
         (rethrow "Error fetching wallet data:" "Failed to fetch wallet data")) |}.

(** *** src/execute-actions.ts *)

Section Actions.

(** [x * c] for a numeric literal [c]: floating-point arithmetic is left
    to the run time. *)
Variable multiply : JsValue -> string -> Completion JsValue.

Definition isValidSolanaAddress (address : JsValue) : Completion bool :=
  test_address address.

Definition transaction (transactionId : string) (details : list (string * JsValue))
  : JsValue :=
  JObject [("transactionId", JString transactionId);
           ("status", JString "confirmed");
           ("details", JObject details)].

(** [`<prefix>_${Date.now()}_${Math.floor(Math.random() * 1000000)}`] *)
Definition new_transaction_id (prefix : string) : T string :=
  tbind Date_now (fun now =>
  tbind random_million (fun r =>
  tret (prefix +:+ "_" +:+ string_of_Z now +:+ "_" +:+ string_of_Z r))).

Definition executeStakeAction (parameters walletAddress : JsValue) : T JsValue :=
  tbind (tlift (destructure "parameters" parameters "amount")) (fun amount =>
  tbind (tlift (Get parameters "validator")) (fun validator =>
  tbind (tlift (ToString amount)) (fun a =>
  tbind (tlift (ToString validator)) (fun v =>
  tbind (console_log ("Executing stake action: " +:+ a +:+ " SOL to validator " +:+ v))
    (fun _ =>
  tbind (new_transaction_id "stake") (fun transactionId =>
  tret (transaction transactionId
          [("amount", amount); ("validator", validator);
           ("estimated_apy", JString "6.5%")]))))))).

Definition executeUnstakeAction (parameters walletAddress : JsValue) : T JsValue :=
  tbind (tlift (destructure "parameters" parameters "amount")) (fun amount =>
  tbind (tlift (Get parameters "stake_account")) (fun stake_account =>
  tbind (tlift (ToString amount)) (fun a =>
  tbind (tlift (ToString stake_account)) (fun acc =>
  tbind (console_log ("Executing unstake action: " +:+ a +:+ " SOL from stake account "
                      +:+ acc)) (fun _ =>
  tbind (new_transaction_id "unstake") (fun transactionId =>
  tret (transaction transactionId
          [("amount", amount); ("stake_account", stake_account);
           ("cooldown_period", JString "2-3 days")]))))))).

Definition executeSwapAction (parameters walletAddress : JsValue) : T JsValue :=
  tbind (tlift (destructure "parameters" parameters "token_in")) (fun token_in =>
  tbind (tlift (Get parameters "token_out")) (fun token_out =>
  tbind (tlift (Get parameters "amount")) (fun amount =>
  tbind (tlift (Get parameters "slippage")) (fun slippage =>
  tbind (tlift (ToString amount)) (fun a =>
  tbind (tlift (ToString token_in)) (fun tin =>
  tbind (tlift (ToString token_out)) (fun tout =>
  tbind (tlift (ToString slippage)) (fun sl =>
  tbind (console_log ("Executing swap action: " +:+ a +:+ " " +:+ tin +:+ " to " +:+ tout
                      +:+ " with " +:+ sl +:+ "% slippage")) (fun _ =>
  tbind (new_transaction_id "swap") (fun transactionId =>
  tbind (tlift (multiply amount "0.98")) (fun amount_out =>
  tbind (tlift (multiply amount "0.003")) (fun fee =>
  tret (transaction transactionId
          [("token_in", token_in); ("token_out", token_out); ("amount_in", amount);
           ("amount_out", amount_out); ("fee", fee)]))))))))))))).

Definition executeSellNftAction (parameters walletAddress : JsValue) : T JsValue :=
  tbind (tlift (destructure "parameters" parameters "nft_address")) (fun nft_address =>
  tbind (tlift (Get parameters "price")) (fun price =>
  tbind (tlift (ToString nft_address)) (fun shown =>
  tbind (tlift (ToString price)) (fun pr =>
  tbind (console_log ("Executing sell NFT action: NFT " +:+ shown +:+ " for " +:+ pr
                      +:+ " SOL")) (fun _ =>
  tbind (new_transaction_id "list_nft") (fun transactionId =>
  tbind (tlift (ToString nft_address)) (fun shown' =>
  tret (transaction transactionId
          [("nft_address", nft_address); ("listing_price", price);
           ("marketplace", JString "Magic Eden");
           ("listing_url",
            JString ("https://magiceden.io/item-details/" +:+ shown'))])))))))).

(** The [switch] of [execute]. *)
Definition run_action (action_type parameters wallet_address : JsValue) : T JsValue :=
  if strict_equals_string "stake" action_type
  then executeStakeAction parameters wallet_address
  else if strict_equals_string "unstake" action_type
  then executeUnstakeAction parameters wallet_address
  else if strict_equals_string "swap" action_type
  then executeSwapAction parameters wallet_address
  else if strict_equals_string "sell_nft" action_type
  then executeSellNftAction parameters wallet_address
  else
    tbind (tlift (ToString action_type)) (fun shown =>
    tlift (Throw (ErrorObject "Error" ("Unsupported action type: " +:+ shown)))).

Definition executeActionsTool : McpTool Runtime :=
  {| name := "execute_action";
     description :=
       "Executes a specific on-chain action on Solana based on the rebalancing advice";
     parameters :=
       JObject [("type", JString "object");
                ("properties",
                 JObject [("action_type",
                           JObject [("type", JString "string");
                                    ("enum", JArray [JString "stake"; JString "unstake";
                                                     JString "swap"; JString "sell_nft"]);
                                    ("description",
                                     JString "The type of action to execute")]);
                          ("parameters",
                           JObject [("type", JString "object");
                                    ("description",
                                     JString "Parameters specific to the action type")]);
                          ("wallet_address",
                           address_schema
                             "The Solana wallet address to execute the action for")]);
                ("required", JArray [JString "action_type"; JString "parameters";
                                     JString "wallet_address"])];
     execute := fun params =>
       tbind (tlift (destructure "undefined" params "action_type")) (fun action_type =>
       tbind (tlift (Get params "parameters")) (fun parameters =>
       tbind (tlift (Get params "wallet_address")) (fun wallet_address =>
       ttry
         (tbind (tlift (isValidSolanaAddress wallet_address)) (fun valid =>
          if negb valid then tlift (Throw invalid_address)
          else
            tbind (run_action action_type parameters wallet_address) (fun result =>
            tbind (tlift (Get result "transactionId")) (fun transaction_id =>
            tbind (tlift (Get result "status")) (fun status =>
            tbind (tlift (Get result "details")) (fun details =>
            tret (JObject [("success", JBool true); ("action_type", action_type);
                           ("transaction_id", transaction_id); ("status", status);
                           ("details", details)])))))))
         (rethrow "Error executing action:" "Failed to execute action")))) |}.

(** The identifier the next simulated transaction gets. *)
Definition next_transaction_id (prefix : string) (rt : Runtime) : string :=
  prefix +:+ "_" +:+ string_of_Z (clock rt (clock_reads rt)) +:+ "_"
  +:+ string_of_Z (dice rt (dice_rolls rt)).

(** One transaction was simulated between [rt] and [rt']: one reading of
    the clock, one draw, and no error reported. *)
Definition simulated_once (rt rt' : Runtime) : Prop :=
  clock_reads rt' = S (clock_reads rt) /\ dice_rolls rt' = S (dice_rolls rt)
  /\ clock rt' = clock rt /\ dice rt' = dice rt /\ stderr rt' = stderr rt.

(** The action types of the [switch], with the prefix of their
    transaction identifiers. *)
Definition action_prefixes : list (string * string) :=
  [("stake", "stake"); ("unstake", "unstake"); ("swap", "swap"); ("sell_nft", "list_nft")].

(** *** The registry of index.ts

    Three of the five tools compute with floating-point numbers or call
    an external model: their [execute] is left open, their name,
    description and schema are as declared. *)

Variables cluster_wallet get_portfolio_insights get_rebalancing_advice
  : JsValue -> Runtime -> Completion JsValue * Runtime.

Definition wallet_only_schema : JsValue :=
  JObject [("type", JString "object");
           ("properties",
            JObject [("wallet_address",
                      address_schema "The Solana wallet address to analyze")]);
           ("required", JArray [JString "wallet_address"])].

Definition walletClusteringTool : McpTool Runtime :=
  {| name := "cluster_wallet";
     description :=
       "Analyzes a Solana wallet and categorizes it into a specific cluster based on "
       +:+ "its holdings and behavior";
     parameters := wallet_only_schema;
     execute := cluster_wallet |}.

Definition portfolioInsightsTool : McpTool Runtime :=
  {| name := "get_portfolio_insights";
     description :=
       "Provides detailed insights about a Solana wallet portfolio including token "
       +:+ "holdings, NFTs, and performance metrics";
     parameters := wallet_only_schema;
     execute := get_portfolio_insights |}.

Definition rebalancingAdviceTool : McpTool Runtime :=
  {| name := "get_rebalancing_advice";
     description :=
       "Generates AI-driven portfolio rebalancing advice for a Solana wallet based on "
       +:+ "its holdings and market conditions";
     parameters :=
       JObject [("type", JString "object");
                ("properties",
                 JObject [("wallet_address",
                           address_schema "The Solana wallet address to analyze");
                          ("risk_preference",
                           JObject [("type", JString "string");
                                    ("enum", JArray [JString "conservative";
                                                     JString "moderate";
                                                     JString "aggressive"]);
                                    ("description",
                                     JString
                                       "The user's risk preference for portfolio rebalancing")])]);
                ("required", JArray [JString "wallet_address"; JString "risk_preference"])];
     execute := get_rebalancing_advice |}.

(** index.ts: the tools in the order [main] registers them. *)
Definition registered_tools : list (McpTool Runtime) :=
  [walletClusteringTool; portfolioInsightsTool; rebalancingAdviceTool;
   executeActionsTool; fetchWalletDataTool].

End Actions.

End Tools.

(** ** Sample calls of the tools *)

Module Demo.

Import Tools.

Definition runtime0 : Runtime :=
  {| clock := fun n => (1700000000000 + Z.of_nat n)%Z; clock_reads := 0;
     dice := fun n => (424242 + Z.of_nat n)%Z; dice_rolls := 0;
     stdout := []; stderr := [] |}.

(** Stand-ins for what the embedding leaves open: the product of a
    number and a literal, and the three tools that are not embedded. *)
Definition times (x : JsValue) (literal : string) : Completion JsValue :=
  Normal (JNumber "NaN").

Definition idle (params : JsValue) (rt : Runtime) : Completion JsValue * Runtime :=
  (Normal JNull, rt).

Definition tools0 : list (McpTool Runtime) := registered_tools times idle idle idle.

Definition server0 : Process Runtime :=
  main {| tools := tools0;
          config := {| openaiApiKey := "key"; rpcUrl := "https://api.mainnet-beta.solana.com";
                       solanaPrivateKey := "secret" |} |} runtime0.

(** Thirty-two characters of the alphabet. *)
Definition system_program : string := "11111111111111111111111111111111".

Definition wallet (address : JsValue) : JsValue := JObject [("wallet_address", address)].

Definition call (tool_name : string) (params : JsValue) : JsValue :=
  JObject [("type", JString "tool_call"); ("tool_name", JString tool_name);
           ("parameters", params)].

Definition body_of (v : JsValue) : string :=
  match JSON_stringify v with
  | Normal (Some s) => s
  | _ => ""
  end.

Definition request (v : JsValue) : IncomingMessage :=
  {| method := "POST"; chunks := [body_of v]; failure := None |}.

Definition cut_short : IncomingMessage :=
  {| method := "POST"; chunks := ["{"];
     failure := Some (ErrorObject "Error" "aborted") |}.

Definition stake_order : JsValue :=
  JObject [("action_type", JString "stake");
           ("parameters", JObject [("amount", JNumber "5"); ("validator", JString "Lido")]);
           ("wallet_address", JString system_program)].

Definition mint_order : JsValue :=
  JObject [("action_type", JString "mint");
           ("parameters", JObject []);
           ("wallet_address", JString system_program)].

End Demo.

(** ** Specifications of computations *)

Section Triples.

Context {E A : Type}.

(** From a store in [P], [m] returns [a] in a store in [Q a], or throws in
    a store in [R]. *)
Definition triple (P : Store E -> Prop) (m : M E A)
    (Q : A -> Store E -> Prop) (R : Store E -> Prop) : Prop :=
  forall st, P st ->
    match m st with
    | (Normal a, st') => Q a st'
    | (Throw _, st') => R st'
    end.

(** [m] keeps [I], whether it returns or throws. *)
Definition invariant (I : Store E -> Prop) (m : M E A) : Prop :=
  triple I m (fun _ => I) I.

End Triples.

Definition has_header {E} (key value : string) (st : Store E) : Prop :=
  headers (fst st) !! key = Some value.

Definition cors_ok {E} (st : Store E) : Prop :=
  has_header "Access-Control-Allow-Origin" "*" st
  /\ has_header "Access-Control-Allow-Methods" "GET, POST, OPTIONS" st
  /\ has_header "Access-Control-Allow-Headers" "Content-Type" st.

(** The status codes the dispatcher and the listener assign. *)
Definition assigned_statuses : list Z := [200; 204; 400; 404; 405; 500]%Z.

Definition status_assigned {E} (st : Store E) : Prop :=
  In (statusCode (fst st)) assigned_statuses.

(** No [execute] has run since the process was [p]. *)
Definition untouched {E} (p : Process E) (st : Store E) : Prop :=
  invoked (snd st) = invoked p /\ world (snd st) = world p
  /\ mcpServer (snd st) = mcpServer p.

(** One [execute] has run since the process was [p]: that of the
    registered tool the lookup of [tool_name] finds, on [params]. *)
Definition ran_once {E} (p : Process E) (st : Store E) : Prop :=
  exists (tool_name params : JsValue) (t : McpTool E),
    find_tool tool_name (registry (mcpServer p)) = Some t
    /\ invoked (snd st) = (invoked p ++ [(name t, params)])%list
    /\ world (snd st) = snd (execute t params (world p))
    /\ mcpServer (snd st) = mcpServer p.

(** ** Properties *)

Lemma stringify_error_envelope (message : string) :
  JSON_stringify (error_envelope message) = Normal (Some (json_error message)).
Proof. reflexivity. Qed.

Lemma strict_equals_string_true (s : string) (v : JsValue) :
  strict_equals_string s v = true <-> v = JString s.
Proof.
  destruct v; cbn; try (split; [discriminate | congruence]).
  rewrite String.eqb_eq. split; congruence.
Qed.

Lemma strict_equals_string_false (s : string) (v : JsValue) :
  v <> JString s -> strict_equals_string s v = false.
Proof.
  intros Hne. destruct (strict_equals_string s v) eqn:Heq; [|reflexivity].
  apply strict_equals_string_true in Heq. contradiction.
Qed.

Lemma Get_string_is_object (v : JsValue) (k s : string) :
  Get v k = Normal (JString s) -> exists props, v = JObject props.
Proof.
  destruct v; cbn; intros H; try discriminate; eauto.
Qed.

(** A value with a string-valued property is an object: every member
    access on it completes. *)
Lemma Get_sibling (v : JsValue) (k s k' : string) :
  Get v k = Normal (JString s) -> exists v', Get v k' = Normal v'.
Proof.
  intros H. destruct (Get_string_is_object _ _ _ H) as [props ->]. cbn. eauto.
Qed.

(** [JSON.stringify] completes on every value without a BigInt inside,
    with a text unless the value is [undefined]. *)
Lemma serializable_stringify (v : JsValue) :
  serializable v = true ->
  exists o, JSON_stringify v = Normal o /\ (v <> JUndefined -> is_Some o).
Proof.
  unfold JSON_stringify.
  induction v as [| |[]|repr|z|s|elems IH|props IH] using JsValue_nested_ind;
    cbn [serializable]; intros Hser; try discriminate;
    try (eexists; split; [reflexivity | intros; eauto; congruence]).
  - assert (exists parts,
      (fix items (l : list JsValue) : Completion (list string) :=
         match l with
         | [] => Normal []
         | x :: rest =>
             cbind (SerializeJSONProperty x) (fun o =>
             cbind (items rest) (fun r => Normal (default "null" o :: r)))
         end) elems = Normal parts) as [parts Hparts].
    { induction IH as [|x rest Hx _ IHrest]; [eauto|].
      cbn in Hser. apply andb_prop in Hser as [Hx' Hrest].
      destruct (Hx Hx') as (o & -> & _). destruct (IHrest Hrest) as [r ->].
      cbn. eauto. }
    cbn. rewrite Hparts. cbn. eauto.
  - assert (exists parts,
      (fix members (l : list (string * JsValue)) : Completion (list string) :=
         match l with
         | [] => Normal []
         | (k, x) :: rest =>
             cbind (SerializeJSONProperty x) (fun o =>
             cbind (members rest) (fun r =>
               Normal (match o with
                       | Some s => (QuoteJSONString k +:+ ":" +:+ s) :: r
                       | None => r
                       end)))
         end) props = Normal parts) as [parts Hparts].
    { induction IH as [|[k x] rest Hx _ IHrest]; [eauto|].
      cbn in Hser, Hx. apply andb_prop in Hser as [Hx' Hrest].
      destruct (Hx Hx') as (o & -> & _). destruct (IHrest Hrest) as [r ->].
      cbn. eauto. }
    cbn. rewrite Hparts. cbn. eauto.
Qed.

(** An object always has a text when [JSON.stringify] completes on it. *)
Lemma serializable_envelope (props : list (string * JsValue)) :
  serializable (JObject props) = true ->
  exists text, JSON_stringify (JObject props) = Normal (Some text).
Proof.
  intros H. destruct (serializable_stringify _ H) as (o & Ho & Hsome).
  destruct Hsome as [text ->]; [discriminate|]. eauto.
Qed.

Section Dispatch.

Context {E : Type}.
Variable JSON_parse : string -> Completion JsValue.

Implicit Types (req : IncomingMessage) (p : Process E) (t : McpTool E).

Local Arguments JSON_stringify : simpl never.

Ltac run :=
  unfold handleRequest, bind, lift, ret, try_catch, res_setHeader, set_statusCode,
    res_end, with_response, console_error, read_body; cbn.

(** C8. An OPTIONS request gets status 204 and an empty body, whatever its
    body stream holds, once the three CORS headers are set: any origin,
    the methods GET, POST, OPTIONS, the request header Content-Type. *)
Theorem options_preflight req p :
  method req = "OPTIONS" ->
  handleRequest JSON_parse req (fresh_response, p)
  = (Normal tt, (respond 204 cors_headers "", p)).
Proof.
  intros Hm. run. rewrite Hm. reflexivity.
Qed.

(** C7. Any other method than POST and OPTIONS gets status 405 and the
    body [{"error":"Method not allowed"}]; the body stream is not read (a
    stream that would fail changes nothing), nothing is logged, no tool is
    called. *)
Theorem method_not_allowed req p :
  method req <> "POST" ->
  method req <> "OPTIONS" ->
  handleRequest JSON_parse req (fresh_response, p)
  = (Normal tt,
     (respond 405 cors_headers
        ("{" +:+ quoted "error" +:+ ":" +:+ quoted "Method not allowed" +:+ "}"), p)).
Proof.
  intros Hpost Hopt. run.
  apply String.eqb_neq in Hpost, Hopt. rewrite Hpost, Hopt. reflexivity.
Qed.

(** C5. A POST whose body [JSON.parse] rejects gets status 400 and the
    fixed body [{"error":"Invalid request"}]; what the decoder threw goes
    to the console and nowhere else. *)
Theorem unparseable_body req p (e : Thrown) :
  method req = "POST" ->
  failure req = None ->
  JSON_parse (body_text req) = Throw e ->
  handleRequest JSON_parse req (fresh_response, p)
  = (Normal tt,
     (respond 400 cors_headers
        ("{" +:+ quoted "error" +:+ ":" +:+ quoted "Invalid request" +:+ "}"),
      logged p "Error processing request:" e)).
Proof.
  intros Hm Hf Hparse. run. rewrite Hm, Hf. cbn. rewrite Hparse. reflexivity.
Qed.


Lemma find_tool_none (tool_name : JsValue) (ts : list (McpTool E)) :
  Forall (fun t => JString (name t) <> tool_name) ts ->
  find_tool tool_name ts = None.
Proof.
  induction 1 as [|t ts Hne _ IH]; [reflexivity|].
  unfold find_tool in *. cbn.
  rewrite strict_equals_string_false by congruence. exact IH.
Qed.

Lemma find_tool_some (tool_name : JsValue) (ts : list (McpTool E)) t :
  find_tool tool_name ts = Some t ->
  tool_name = JString (name t) /\ In t ts.
Proof.
  unfold find_tool. intros H. apply find_some in H as [Hin Heq].
  apply strict_equals_string_true in Heq. auto.
Qed.

Ltac run_call :=
  unfold handleToolCallRequest, invoke_tool, call_execute, get_tools, bind, lift, ret,
    try_catch, res_setHeader, set_statusCode, res_end, with_response, console_error; cbn.


(** C1, amended. A tool_call for a registered tool whose [execute]
    resolves with a value [v] that holds no BigInt gets status 200 and,
    as body, the JSON text of [{ result: v }], [v] being the very value
    [execute] produced. *)
Theorem tool_call_success req p (request tool_name params v : JsValue) t (w : E) :
  method req = "POST" ->
  failure req = None ->
  JSON_parse (body_text req) = Normal request ->
  Get request "type" = Normal (JString "tool_call") ->
  Get request "tool_name" = Normal tool_name ->
  Get request "parameters" = Normal params ->
  find_tool tool_name (registry (mcpServer p)) = Some t ->
  execute t params (world p) = (Normal v, w) ->
  serializable v = true ->
  exists text,
    JSON_stringify (JObject [("result", v)]) = Normal (Some text) /\
    handleRequest JSON_parse req (fresh_response, p)
    = (Normal tt, (respond 200 json_headers text, called p t params w)).
Proof.
  intros Hm Hf Hparse Hty Hname Hparams Hfind Hexec Hser.
  destruct (serializable_envelope [("result", v)]) as [text Htext].
  { cbn. rewrite Hser. reflexivity. }
  exists text. split; [exact Htext|].
  run. rewrite Hm, Hf. cbn. rewrite Hparse, Hty. cbn.
  run_call. rewrite Hname, Hparams, Hfind, Hexec. cbn. rewrite Htext. reflexivity.
Qed.

Lemma contains_middle (a b c : string) : contains b (a +:+ b +:+ c).
Proof. exists a, c. reflexivity. Qed.

Lemma append_empty (b : string) : b +:+ EmptyString = b.
Proof.
  induction b as [|ch b IH]; [reflexivity|].
  change (String ch (b +:+ EmptyString) = String ch b). f_equal. exact IH.
Qed.

Lemma contains_suffix (a b : string) : contains b (a +:+ b).
Proof. exists a, EmptyString. rewrite append_empty. reflexivity. Qed.

Lemma append_assoc (a b c : string) : (a +:+ b) +:+ c = a +:+ b +:+ c.
Proof.
  induction a as [|ch a IH]; [reflexivity|].
  change (String ch ((a +:+ b) +:+ c) = String ch (a +:+ b +:+ c)). f_equal. exact IH.
Qed.


Lemma serializable_schemas (ts : list (McpTool E)) :
  Forall (fun t => serializable (parameters t) = true) ts ->
  forallb serializable (map tool_schema ts) = true.
Proof.
  induction 1 as [|t ts Ht _ IH]; [reflexivity|].
  cbn. rewrite Ht, IH. reflexivity.
Qed.

(** C2, amended. When no registered schema holds a BigInt, a capabilities
    request gets status 200 and, as body, the JSON text of
    [{ protocol_version: "0.1", capabilities: { tools: [...] } }], with
    one descriptor per registered tool, in registration order, made of
    the tool's [name], [description] and [parameters] as declared and of
    nothing else: no [execute]. *)
Theorem capabilities_listing req p (request : JsValue) :
  method req = "POST" ->
  failure req = None ->
  JSON_parse (body_text req) = Normal request ->
  Get request "type" = Normal (JString "capabilities") ->
  Forall (fun t => serializable (parameters t) = true) (registry (mcpServer p)) ->
  exists (text : string) (descriptors : list JsValue),
    handleRequest JSON_parse req (fresh_response, p)
    = (Normal tt, (respond 200 json_headers text, p))
    /\ JSON_stringify
         (JObject [("protocol_version", JString "0.1");
                   ("capabilities", JObject [("tools", JArray descriptors)])])
       = Normal (Some text)
    /\ length descriptors = length (registry (mcpServer p))
    /\ forall (i : nat) t,
         registry (mcpServer p) !! i = Some t ->
         descriptors !! i
         = Some (JObject [("name", JString (name t));
                          ("description", JString (description t));
                          ("parameters", parameters t)]).
Proof.
  intros Hm Hf Hparse Hty Hser.
  destruct (serializable_envelope
              [("protocol_version", JString "0.1");
               ("capabilities",
                JObject [("tools", JArray (map tool_schema (registry (mcpServer p))))])])
    as [text Htext].
  { cbn. rewrite (serializable_schemas _ Hser). reflexivity. }
  exists text, (map tool_schema (registry (mcpServer p))).
  split; [|split; [exact Htext|split]].
  - run. rewrite Hm, Hf. cbn. rewrite Hparse, Hty. cbn.
    unfold handleCapabilitiesRequest, get_tools. run.
    unfold PROTOCOL_VERSION. fold (@tool_schema E). rewrite Htext. reflexivity.
  - apply length_map.
  - intros i t Hi. rewrite list_lookup_fmap, Hi. reflexivity.
Qed.


(** *** No state of the dispatcher's own *)

Section Respect.

Variable same_world : E -> E -> Prop.

Create HintDb dispatcher.

Lemma respects_ret {A} (a : A) : respects same_world (ret a).
Proof. intros st st' Hal _. cbn. auto. Qed.

Lemma respects_lift {A} (c : Completion A) : respects same_world (lift c).
Proof. intros st st' Hal _. cbn. auto. Qed.

Lemma respects_bind {A B} (m : M E A) (k : A -> M E B) :
  respects same_world m -> (forall a, respects same_world (k a)) -> respects same_world (bind m k).
Proof.
  intros Hm Hk st st' Hal Hts. destruct (Hm st st' Hal Hts) as (Hc & Hal' & Hsrv).
  unfold bind. destruct (m st) as [c st1], (m st') as [c' st1']. cbn in *. subst c'.
  destruct c as [a|e]; [|auto].
  rewrite <- Hsrv in Hts. destruct (Hk a st1 st1' Hal' Hts) as (? & ? & Hsrv').
  rewrite Hsrv' . auto.
Qed.

Lemma respects_try_catch {A} (body : M E A) (handler : Thrown -> M E A) :
  respects same_world body ->
  (forall e, respects same_world (handler e)) ->
  respects same_world (try_catch body handler).
Proof.
  intros Hm Hk st st' Hal Hts. destruct (Hm st st' Hal Hts) as (Hc & Hal' & Hsrv).
  unfold try_catch. destruct (body st) as [c st1], (body st') as [c' st1']. cbn in *.
  subst c'. destruct c as [a|e]; [auto|].
  rewrite <- Hsrv in Hts. destruct (Hk e st1 st1' Hal' Hts) as (? & ? & Hsrv').
  rewrite Hsrv'. auto.
Qed.

Ltac same_response :=
  intros [res p] [res' p'] (Hres & Hsrv & Hw) _; cbn in Hres, Hsrv, Hw; subst res';
  unfold alike; cbn.

Lemma respects_with_response (f : ServerResponse -> ServerResponse) :
  respects same_world (with_response f).
Proof. same_response. auto. Qed.

Lemma respects_set_statusCode (code : Z) : respects same_world (set_statusCode code).
Proof. apply respects_with_response. Qed.

Lemma respects_res_end (data : option string) : respects same_world (res_end data).
Proof. apply respects_with_response. Qed.

Lemma respects_res_setHeader (key value : string) : respects same_world (res_setHeader key value).
Proof. same_response. destruct (writableEnded res); cbn; auto. Qed.

Lemma respects_console_error (label : string) (error : Thrown) :
  respects same_world (console_error label error).
Proof. same_response. auto. Qed.

Lemma respects_read_body req : respects same_world (read_body req).
Proof.
  unfold read_body. destruct (failure req); [apply respects_lift | apply respects_ret].
Qed.

Lemma respects_call_execute t (params : JsValue) :
  tool_respects same_world t -> respects same_world (call_execute t params).
Proof.
  intros Ht. same_response. destruct (Ht params (world p) (world p') Hw) as [Hc Hw'].
  destruct (execute t params (world p)) as [c w], (execute t params (world p')) as [c' w'].
  cbn in *. auto.
Qed.

Lemma respects_get_tools : respects same_world get_tools.
Proof. same_response. rewrite Hsrv. auto. Qed.

(** What [get_tools] hands over is the registry, whose tools respect the
    comparison. *)
Lemma respects_bind_tools {B} (k : list (McpTool E) -> M E B) :
  (forall ts, Forall (tool_respects same_world) ts -> respects same_world (k ts)) ->
  respects same_world (bind get_tools k).
Proof.
  intros Hk [res p] [res' p'] Hal Hts. pose proof Hal as (_ & Hsrv & _).
  cbn in Hsrv, Hts. unfold bind, get_tools. rewrite <- Hsrv.
  exact (Hk _ Hts (res, p) (res', p') Hal Hts).
Qed.

#[local] Hint Resolve respects_get_tools respects_ret respects_lift respects_bind
  respects_try_catch respects_set_statusCode respects_res_end respects_res_setHeader
  respects_console_error respects_read_body respects_call_execute : dispatcher.

Lemma respects_handleCapabilitiesRequest : respects same_world handleCapabilitiesRequest.
Proof. unfold handleCapabilitiesRequest. auto 10 with dispatcher. Qed.

Lemma respects_invoke_tool t (tool_name params : JsValue) :
  tool_respects same_world t -> respects same_world (invoke_tool t tool_name params).
Proof. intros Ht. unfold invoke_tool. auto 20 with dispatcher. Qed.

Lemma respects_handleToolCallRequest (request : JsValue) :
  respects same_world (handleToolCallRequest request).
Proof.
  unfold handleToolCallRequest.
  apply respects_bind; [apply respects_lift | intros tool_name].
  apply respects_bind; [apply respects_lift | intros params].
  apply respects_bind_tools. intros ts Hts.
  destruct (find_tool tool_name ts) as [t|] eqn:Hfind; [|auto 10 with dispatcher].
  apply respects_invoke_tool.
  apply find_tool_some in Hfind as [_ Hin].
  rewrite Forall_forall in Hts. apply Hts, list_elem_of_In, Hin.
Qed.

Lemma respects_handleRequest req : respects same_world (handleRequest JSON_parse req).
Proof.
  unfold handleRequest.
  do 3 (apply respects_bind; [apply respects_res_setHeader | intros _]).
  destruct (String.eqb (method req) "OPTIONS"); [auto with dispatcher|].
  destruct (negb (String.eqb (method req) "POST")); [auto 10 with dispatcher|].
  apply respects_bind; [apply respects_read_body | intros body].
  apply respects_try_catch; [|auto 10 with dispatcher].
  apply respects_bind; [apply respects_lift | intros request].
  apply respects_bind; [apply respects_lift | intros ty].
  destruct (strict_equals_string "capabilities" ty);
    [apply respects_handleCapabilitiesRequest|].
  destruct (strict_equals_string "tool_call" ty);
    [apply respects_handleToolCallRequest|].
  auto 10 with dispatcher.
Qed.

Lemma respects_onRequest req p p' :
  mcpServer p = mcpServer p' ->
  same_world (world p) (world p') ->
  Forall (tool_respects same_world) (registry (mcpServer p)) ->
  fst (onRequest JSON_parse req p) = fst (onRequest JSON_parse req p')
  /\ alike same_world (snd (onRequest JSON_parse req p)) (snd (onRequest JSON_parse req p'))
  /\ mcpServer (snd (snd (onRequest JSON_parse req p))) = mcpServer p.
Proof.
  intros Hsrv Hw Hts. unfold onRequest.
  apply (respects_try_catch (handleRequest JSON_parse req)).
  - apply respects_handleRequest.
  - auto 10 with dispatcher.
  - unfold alike. cbn. auto.
  - exact Hts.
Qed.

End Respect.

(** *** Every request is answered *)

Section Answer.

Create HintDb progress.

Lemma proceeds_keeps_open {A} (m : M E A) : proceeds m -> keeps_open m.
Proof. intros Hm st Hst. destruct (Hm st Hst) as (a & st' & -> & Hopen). exact Hopen. Qed.

Lemma answers_sends {A} (m : M E A) : answers m -> sends_or_throws m.
Proof. intros Hm st Hst. destruct (Hm st Hst) as (a & st' & -> & Hsent). exact Hsent. Qed.

Lemma keeps_open_lift {A} (c : Completion A) : keeps_open (E := E) (lift c).
Proof. intros st Hst. exact Hst. Qed.

Lemma keeps_open_bind {A B} (m : M E A) (k : A -> M E B) :
  keeps_open m -> (forall a, keeps_open (k a)) -> keeps_open (bind m k).
Proof.
  intros Hm Hk st Hst. specialize (Hm st Hst). unfold bind.
  destruct (m st) as [[a|e] st']; [apply Hk|]; exact Hm.
Qed.

Lemma proceeds_ret {A} (a : A) : proceeds (E := E) (ret a).
Proof. intros st Hst. exists a, st. auto. Qed.

Lemma proceeds_bind {A B} (m : M E A) (k : A -> M E B) :
  proceeds m -> (forall a, proceeds (k a)) -> proceeds (bind m k).
Proof.
  intros Hm Hk st Hst. destruct (Hm st Hst) as (a & st' & Heq & Hopen).
  unfold bind. rewrite Heq. exact (Hk a st' Hopen).
Qed.

Lemma proceeds_set_statusCode (code : Z) : proceeds (E := E) (set_statusCode code).
Proof. intros [res p] Hst. eexists _, _. split; [reflexivity | exact Hst]. Qed.

Lemma proceeds_res_setHeader (key value : string) :
  proceeds (E := E) (res_setHeader key value).
Proof.
  intros [res p] Hst. unfold open_response in Hst. cbn in Hst. unfold res_setHeader.
  rewrite Hst. eexists _, _. split; reflexivity.
Qed.

Lemma proceeds_console_error (label : string) (error : Thrown) :
  proceeds (E := E) (console_error label error).
Proof. intros [res p] Hst. eexists _, _. split; [reflexivity | exact Hst]. Qed.

Lemma proceeds_get_tools : proceeds (E := E) get_tools.
Proof. intros [res p] Hst. eexists _, _. split; [reflexivity | exact Hst]. Qed.

Lemma proceeds_stringify_error (message : string) :
  proceeds (E := E) (lift (JSON_stringify (error_envelope message))).
Proof.
  intros st Hst. rewrite stringify_error_envelope. eexists _, _.
  split; [reflexivity | exact Hst].
Qed.

Lemma keeps_open_call_execute t (params : JsValue) : keeps_open (call_execute t params).
Proof.
  intros [res p] Hst. unfold call_execute.
  destruct (execute t params (world p)) as [c w]. exact Hst.
Qed.

Lemma answers_res_end (data : option string) : answers (E := E) (res_end data).
Proof.
  intros [res p] Hst. unfold open_response in Hst. cbn in Hst.
  eexists _, _. split; [reflexivity|]. unfold sent. cbn. rewrite Hst. reflexivity.
Qed.

Lemma answers_bind {A B} (m : M E A) (k : A -> M E B) :
  proceeds m -> (forall a, answers (k a)) -> answers (bind m k).
Proof.
  intros Hm Hk st Hst. destruct (Hm st Hst) as (a & st' & Heq & Hopen).
  unfold bind. rewrite Heq. exact (Hk a st' Hopen).
Qed.

Lemma answers_try_catch {A} (body : M E A) (handler : Thrown -> M E A) :
  sends_or_throws body -> (forall e, answers (handler e)) -> answers (try_catch body handler).
Proof.
  intros Hbody Hh st Hst. specialize (Hbody st Hst). unfold try_catch.
  destruct (body st) as [[a|e] st']; [eauto | exact (Hh e st' Hbody)].
Qed.

Lemma sends_or_throws_bind {A B} (m : M E A) (k : A -> M E B) :
  keeps_open m -> (forall a, sends_or_throws (k a)) -> sends_or_throws (bind m k).
Proof.
  intros Hm Hk st Hst. specialize (Hm st Hst). unfold bind.
  destruct (m st) as [[a|e] st']; [exact (Hk a st' Hm) | exact Hm].
Qed.

Lemma sends_or_throws_try_catch {A} (body : M E A) (handler : Thrown -> M E A) :
  sends_or_throws body ->
  (forall e, sends_or_throws (handler e)) ->
  sends_or_throws (try_catch body handler).
Proof.
  intros Hbody Hh st Hst. specialize (Hbody st Hst). unfold try_catch.
  destruct (body st) as [[a|e] st']; [exact Hbody | exact (Hh e st' Hbody)].
Qed.

#[local] Hint Resolve proceeds_keeps_open answers_sends keeps_open_lift keeps_open_bind
  proceeds_ret proceeds_bind proceeds_set_statusCode proceeds_res_setHeader
  proceeds_console_error proceeds_get_tools proceeds_stringify_error
  keeps_open_call_execute answers_res_end answers_bind sends_or_throws_bind
  sends_or_throws_try_catch : progress.

Lemma sends_or_throws_handleCapabilitiesRequest :
  sends_or_throws (E := E) handleCapabilitiesRequest.
Proof. unfold handleCapabilitiesRequest. auto 20 with progress. Qed.

Lemma sends_or_throws_invoke_tool t (tool_name params : JsValue) :
  sends_or_throws (invoke_tool t tool_name params).
Proof. unfold invoke_tool. auto 30 with progress. Qed.

Lemma sends_or_throws_handleToolCallRequest (request : JsValue) :
  sends_or_throws (E := E) (handleToolCallRequest request).
Proof.
  unfold handleToolCallRequest.
  do 3 (apply sends_or_throws_bind; [auto with progress | intros ?]).
  destruct (find_tool _ _); [apply sends_or_throws_invoke_tool | auto 20 with progress].
Qed.

(** The [try] statement of [handleRequest]. *)
Lemma answers_dispatch (body : string) :
  answers (E := E)
    (try_catch
       (bind (lift (JSON_parse body)) (fun request =>
        bind (lift (Get request "type")) (fun ty =>
        if strict_equals_string "capabilities" ty then handleCapabilitiesRequest
        else if strict_equals_string "tool_call" ty then handleToolCallRequest request
        else
          bind (set_statusCode 400) (fun _ =>
          bind (lift (ToString ty)) (fun shown =>
          bind (lift (JSON_stringify
                        (error_envelope ("Unknown request type: " +:+ shown))))
            (fun text => res_end text))))))
       (fun error =>
          bind (console_error "Error processing request:" error) (fun _ =>
          bind (set_statusCode 400) (fun _ =>
          bind (lift (JSON_stringify (error_envelope "Invalid request")))
            (fun text => res_end text))))).
Proof.
  apply answers_try_catch; [|auto 10 with progress].
  do 2 (apply sends_or_throws_bind; [auto with progress | intros ?]).
  destruct (strict_equals_string "capabilities" _);
    [apply sends_or_throws_handleCapabilitiesRequest|].
  destruct (strict_equals_string "tool_call" _);
    [apply sends_or_throws_handleToolCallRequest|].
  auto 20 with progress.
Qed.

(** [handleRequest] answers unless reading the body fails, and then the
    response is still open. *)
Lemma sends_or_throws_handleRequest req :
  sends_or_throws (E := E) (handleRequest JSON_parse req).
Proof.
  unfold handleRequest.
  do 3 (apply sends_or_throws_bind; [auto with progress | intros _]).
  destruct (String.eqb (method req) "OPTIONS"); [auto 10 with progress|].
  destruct (negb (String.eqb (method req) "POST")); [auto 10 with progress|].
  apply sends_or_throws_bind; [|intros body; apply answers_sends, answers_dispatch].
  unfold read_body. destruct (failure req); [apply keeps_open_lift|].
  apply proceeds_keeps_open, proceeds_ret.
Qed.


End Answer.

Lemma tool_respects_eq t : tool_respects eq t.
Proof. intros params w w' <-. auto. Qed.

Lemma registry_respects_eq (ts : list (McpTool E)) : Forall (tool_respects eq) ts.
Proof. apply Forall_forall. intros t _. apply tool_respects_eq. Qed.

Lemma onRequest_keeps_server req p :
  mcpServer (snd (snd (onRequest JSON_parse req p))) = mcpServer p.
Proof.
  apply (respects_onRequest eq req p p); auto using registry_respects_eq.
Qed.

Lemma serve_keeps_server (reqs : list IncomingMessage) p :
  mcpServer (snd (serve JSON_parse reqs p)) = mcpServer p.
Proof.
  revert p. induction reqs as [|req reqs IH]; intros p; [reflexivity|].
  cbn. pose proof (onRequest_keeps_server req p) as Hstep.
  destruct (onRequest JSON_parse req p) as [c [res p1]]. cbn in Hstep.
  specialize (IH p1). destruct (serve JSON_parse reqs p1) as [rs p2]. cbn in *.
  congruence.
Qed.

(** C9, amended. Handling requests leaves the registry as it was, and the
    dispatcher has no state of its own: the response to a request, and
    what it leaves of the tools' environment, depend on the request, the
    registry and that environment, not on the console or on the calls
    made before.  When no registered tool depends on its environment,
    the response is the same whatever requests were handled before. *)
Theorem dispatcher_keeps_no_state :
  (forall req p, mcpServer (snd (snd (onRequest JSON_parse req p))) = mcpServer p)
  /\ (forall (reqs : list IncomingMessage) p,
        mcpServer (snd (serve JSON_parse reqs p)) = mcpServer p)
  /\ (forall req p p',
        mcpServer p = mcpServer p' ->
        world p = world p' ->
        fst (snd (onRequest JSON_parse req p)) = fst (snd (onRequest JSON_parse req p'))
        /\ world (snd (snd (onRequest JSON_parse req p)))
           = world (snd (snd (onRequest JSON_parse req p'))))
  /\ (forall p,
        Forall env_independent (registry (mcpServer p)) ->
        history_free JSON_parse p).
Proof.
  split; [exact onRequest_keeps_server|]. split; [exact serve_keeps_server|]. split.
  - intros req p p' Hsrv Hw.
    destruct (respects_onRequest eq req p p' Hsrv Hw (registry_respects_eq _))
      as (_ & (Hres & _ & Hw') & _).
    auto.
  - intros p Hts reqs req. symmetry.
    assert (Hsrv : mcpServer p = mcpServer (snd (serve JSON_parse reqs p)))
      by (symmetry; apply serve_keeps_server).
    destruct (respects_onRequest (fun _ _ => True) req p _ Hsrv I Hts)
      as (_ & (Hres & _) & _).
    exact Hres.
Qed.

End Dispatch.

(** ** The theorems at work, and where the unamended statements fail *)

Import Samples.

(** C8 at work: a preflight with a body. *)
Lemma options_preflight_witness :
  handleRequest decode preflight (fresh_response, booted [echo])
  = (Normal tt, (respond 204 cors_headers "", booted [echo])).
Proof. apply (options_preflight decode preflight). reflexivity. Defined.

(** C7 at work: a GET whose stream would fail. *)
Lemma method_not_allowed_witness :
  handleRequest decode aborted_get (fresh_response, booted [echo])
  = (Normal tt,
     (respond 405 cors_headers
        ("{" +:+ quoted "error" +:+ ":" +:+ quoted "Method not allowed" +:+ "}"),
      booted [echo])).
Proof. apply (method_not_allowed decode aborted_get); discriminate. Defined.

(** C5 at work: a body cut short. *)
Lemma unparseable_body_witness :
  handleRequest decode (post "{") (fresh_response, booted [echo])
  = (Normal tt,
     (respond 400 cors_headers
        ("{" +:+ quoted "error" +:+ ":" +:+ quoted "Invalid request" +:+ "}"),
      logged (booted [echo]) "Error processing request:" RefJSON.SyntaxError)).
Proof. apply (unparseable_body decode (post "{")); reflexivity. Defined.





(** C1 at work: the echo scenario, [{"result":{"x":1}}]. *)
Lemma tool_call_success_witness :
  exists text,
    JSON_stringify (JObject [("result", x1)]) = Normal (Some text) /\
    handleRequest decode (post (text_of (tool_call (JString "echo") x1)))
      (fresh_response, booted [echo])
    = (Normal tt, (respond 200 json_headers text, called (booted [echo]) echo x1 0)).
Proof.
  apply (tool_call_success decode _ _ (tool_call (JString "echo") x1) (JString "echo"));
    reflexivity.
Defined.

(** C1 as stated fails when [execute] resolves with a BigInt: the text
    cannot be built and the answer is 500. *)
Lemma bigint_result_is_an_error :
  find_tool (JString "balance") (registry (mcpServer (booted [balance]))) = Some balance
  /\ execute balance JNull 0 = (Normal (JBigInt 5000000000), 0)
  /\ outcome [balance] (text_of (tool_call (JString "balance") JNull))
     = (Normal tt,
        (respond 500 json_headers
           (json_error
              "Error executing tool balance: Do not know how to serialize a BigInt"),
         logged (called (booted [balance]) balance JNull 0)
           "Error executing tool balance:"
           (TypeError "Do not know how to serialize a BigInt")))
  /\ status_of (outcome [balance] (text_of (tool_call (JString "balance") JNull)))
     <> 200%Z.
Proof. repeat split; vm_compute; [reflexivity..|discriminate]. Qed.

(** C2 at work: two tools, two descriptors. *)
Lemma capabilities_listing_witness :
  exists (text : string) (descriptors : list JsValue),
    handleRequest decode (post (text_of capabilities_request))
      (fresh_response, booted [echo; ticket])
    = (Normal tt, (respond 200 json_headers text, booted [echo; ticket]))
    /\ JSON_stringify
         (JObject [("protocol_version", JString "0.1");
                   ("capabilities", JObject [("tools", JArray descriptors)])])
       = Normal (Some text)
    /\ length descriptors = 2.
Proof.
  destruct (capabilities_listing decode (post (text_of capabilities_request))
              (booted [echo; ticket]) capabilities_request)
    as (text & descriptors & Hrun & Htext & Hlen & _);
    [reflexivity | reflexivity | reflexivity | reflexivity
    | repeat constructor |].
  exists text, descriptors. auto.
Defined.

(** C2 as stated fails when a declared schema holds a BigInt: the
    document has no text and the answer is 400. *)
Lemma bigint_schema_is_invalid :
  parameters transfer
  = JObject [("type", JString "object"); ("maximum", JBigInt 18446744073709551615)]
  /\ outcome [echo; transfer] (text_of capabilities_request)
     = (Normal tt,
        (respond 400 json_headers (json_error "Invalid request"),
         logged (booted [echo; transfer]) "Error processing request:"
           (TypeError "Do not know how to serialize a BigInt")))
  /\ status_of (outcome [echo; transfer] (text_of capabilities_request)) <> 200%Z.
Proof. repeat split; vm_compute; [reflexivity..|discriminate]. Qed.




Example duplicate_name_first_answers :
  outcome [echo; shout] (text_of (tool_call (JString "echo") x1))
  = (Normal tt,
     (respond 200 json_headers ("{" +:+ quoted "result" +:+ ":{" +:+ quoted "x" +:+ ":1}}"),
      called (booted [echo; shout]) echo x1 0)).
Proof. vm_compute. reflexivity. Qed.

Lemma echo_env_independent : env_independent echo.
Proof. intros params w w' _. split; [reflexivity | exact I]. Qed.

(** C9 at work: a server whose only tool does not read its environment. *)
Lemma dispatcher_keeps_no_state_witness : history_free decode (booted [echo]).
Proof.
  apply (dispatcher_keeps_no_state decode).
  constructor; [exact echo_env_independent | constructor].
Defined.

(** C9 as stated fails with a tool that keeps a counter: the same request
    is answered [{"result":0}], then [{"result":1}]. *)
Lemma counting_tool_remembers :
  payload (fst (snd (onRequest decode (post (text_of (tool_call (JString "ticket") x1)))
                       (booted [ticket]))))
  = "{" +:+ quoted "result" +:+ ":0}"
  /\ payload (fst (snd (onRequest decode (post (text_of (tool_call (JString "ticket") x1)))
                          (snd (serve decode
                                  [post (text_of (tool_call (JString "ticket") x1))]
                                  (booted [ticket]))))))
     = "{" +:+ quoted "result" +:+ ":1}"
  /\ ~ history_free decode (booted [ticket]).
Proof.
  split; [vm_compute; reflexivity|]. split; [vm_compute; reflexivity|].
  intros H.
  specialize (H [post (text_of (tool_call (JString "ticket") x1))]
                (post (text_of (tool_call (JString "ticket") x1)))).
  vm_compute in H. discriminate H.
Qed.

(** ** More of the dispatcher and of the listener *)

Section Logic.

Context {E : Type}.

Lemma triple_ret {A} (P : Store E -> Prop) (a : A) Q R :
  (forall st, P st -> Q a st) -> triple P (ret a) Q R.
Proof. intros H st Hst. exact (H st Hst). Qed.

Lemma triple_lift {A} (P : Store E -> Prop) (c : Completion A) Q R :
  (forall st, P st -> match c with Normal a => Q a st | Throw _ => R st end) ->
  triple P (lift c) Q R.
Proof. intros H st Hst. specialize (H st Hst). unfold lift. destruct c; exact H. Qed.

Lemma triple_bind {A B} (P : Store E -> Prop) (m : M E A) (k : A -> M E B) Q' Q R :
  triple P m Q' R -> (forall a, triple (Q' a) (k a) Q R) -> triple P (bind m k) Q R.
Proof.
  intros Hm Hk st Hst. specialize (Hm st Hst). unfold bind.
  destruct (m st) as [[a|e] st']; [exact (Hk a st' Hm) | exact Hm].
Qed.

Lemma triple_try_catch {A} (P : Store E -> Prop) (body : M E A) handler Q R' R :
  triple P body Q R' -> (forall e, triple R' (handler e) Q R) ->
  triple P (try_catch body handler) Q R.
Proof.
  intros Hm Hh st Hst. specialize (Hm st Hst). unfold try_catch.
  destruct (body st) as [[a|e] st']; [exact Hm | exact (Hh e st' Hm)].
Qed.

Lemma triple_weaken {A} (P P' : Store E -> Prop) (m : M E A) (Q Q' : A -> Store E -> Prop)
    (R R' : Store E -> Prop) :
  triple P m Q R ->
  (forall st, P' st -> P st) ->
  (forall a st, Q a st -> Q' a st) ->
  (forall st, R st -> R' st) ->
  triple P' m Q' R'.
Proof.
  intros Hm HP HQ HR st Hst. specialize (Hm st (HP st Hst)).
  destruct (m st) as [[a|e] st']; auto.
Qed.

Lemma invariant_ret {A} (I : Store E -> Prop) (a : A) : invariant I (ret a).
Proof. apply triple_ret. auto. Qed.

Lemma invariant_lift {A} (I : Store E -> Prop) (c : Completion A) : invariant I (lift c).
Proof. apply triple_lift. destruct c; auto. Qed.

Lemma invariant_bind {A B} (I : Store E -> Prop) (m : M E A) (k : A -> M E B) :
  invariant I m -> (forall a, invariant I (k a)) -> invariant I (bind m k).
Proof. intros Hm Hk. exact (triple_bind I m k _ _ I Hm Hk). Qed.

Lemma invariant_try_catch {A} (I : Store E -> Prop) (body : M E A) handler :
  invariant I body -> (forall e, invariant I (handler e)) ->
  invariant I (try_catch body handler).
Proof. intros Hm Hh. exact (triple_try_catch I body handler _ I I Hm Hh). Qed.

Lemma invariant_or {A} (I J : Store E -> Prop) (m : M E A) :
  invariant I m -> invariant J m -> invariant (fun st => I st \/ J st) m.
Proof.
  intros HI HJ st [Hst|Hst]; [specialize (HI st Hst) | specialize (HJ st Hst)];
    destruct (m st) as [[a|e] st']; auto.
Qed.

Lemma invariant_with_response (I : Store E -> Prop) f :
  (forall res p, I (res, p) -> I (f res, p)) -> invariant I (with_response f).
Proof. intros H [res p] Hst. exact (H res p Hst). Qed.

Lemma invariant_res_setHeader (I : Store E -> Prop) (key value : string) :
  (forall res p, I (res, p) ->
     I ({| statusCode := statusCode res; headers := <[key := value]> (headers res);
           writableEnded := writableEnded res; payload := payload res |}, p)) ->
  invariant I (res_setHeader key value).
Proof.
  intros H [res p] Hst. unfold res_setHeader.
  destruct (writableEnded res) eqn:Hended; [exact Hst|].
  specialize (H res p Hst). rewrite Hended in H. exact H.
Qed.

Lemma invariant_console_error (I : Store E -> Prop) (label : string) (error : Thrown) :
  (forall res p, I (res, p) -> I (res, logged p label error)) ->
  invariant I (console_error label error).
Proof. intros H [res p] Hst. exact (H res p Hst). Qed.

Lemma invariant_get_tools (I : Store E -> Prop) : invariant I get_tools.
Proof. intros [res p] Hst. exact Hst. Qed.

Lemma invariant_read_body (I : Store E -> Prop) req : invariant I (read_body req).
Proof.
  unfold read_body. destruct (failure req); [apply invariant_lift | apply invariant_ret].
Qed.

Lemma invariant_call_execute (I : Store E -> Prop) (t : McpTool E) (params : JsValue) :
  (forall res p, I (res, p) ->
     I (res, called p t params (snd (execute t params (world p))))) ->
  invariant I (call_execute t params).
Proof.
  intros H [res p] Hst. specialize (H res p Hst). unfold call_execute.
  destruct (execute t params (world p)) as [[v|e] w]; exact H.
Qed.

End Logic.

(** Walks a handler with the rules above; [side] settles what a
    primitive must keep. *)
Ltac walk side :=
  repeat first
    [ apply invariant_ret
    | apply invariant_lift
    | apply invariant_get_tools
    | apply invariant_read_body
    | apply invariant_bind; [|intros ?]
    | apply invariant_try_catch; [|intros ?]
    | apply invariant_with_response; intros ? ? ?; side
    | apply invariant_res_setHeader; intros ? ? ?; side
    | apply invariant_console_error; intros ? ? ?; side
    | apply invariant_call_execute; intros ? ? ?; side
    | match goal with
      | |- invariant _ (if ?b then _ else _) => destruct b
      | |- invariant _ (match ?x with _ => _ end) => destruct x
      end
    | progress unfold handleCapabilitiesRequest, handleToolCallRequest, invoke_tool,
        set_statusCode, res_end ].

Ltac as_invariant :=
  match goal with |- triple ?P ?m _ _ => change (invariant P m) end.

Ltac exec :=
  unfold onRequest, handleRequest, handleCapabilitiesRequest, handleToolCallRequest,
    invoke_tool, call_execute, get_tools, bind, lift, ret, try_catch, res_setHeader,
    set_statusCode, res_end, with_response, console_error, read_body; cbn.

Section Listener.

Context {E : Type}.
Variable JSON_parse : string -> Completion JsValue.

Implicit Types (req : IncomingMessage) (p : Process E) (t : McpTool E).

Local Arguments JSON_stringify : simpl never.

(** X2. A POST whose body stream fails leaves [handleRequest] with what
    the stream threw; the listener of index.ts logs it and answers 500
    [{"error":"Internal server error"}], with the CORS headers; nothing
    is parsed and no tool runs. *)
Theorem aborted_body_is_internal_error req p (e : Thrown) :
  method req = "POST" ->
  failure req = Some e ->
  handleRequest JSON_parse req (fresh_response, p)
  = (Throw e, ({| statusCode := 200; headers := cors_headers;
                  writableEnded := false; payload := "" |}, p))
  /\ onRequest JSON_parse req p
     = (Normal tt,
        (respond 500 cors_headers (json_error "Internal server error"),
         logged p "Error handling request:" e)).
Proof.
  intros Hm Hf. split; exec; rewrite Hm, Hf; reflexivity.
Qed.

Ltac keep_status :=
  unfold status_assigned, assigned_statuses in *; cbn in *;
  try match goal with |- context [writableEnded ?r] => destruct (writableEnded r) end;
  cbn; auto 10.

Lemma status_assigned_handleRequest req :
  invariant (E := E) status_assigned (handleRequest JSON_parse req).
Proof. unfold handleRequest. walk keep_status. Qed.

(** X4. Whatever the request, the tools and the decoder, the status of
    the response is one of 200, 204, 400, 404, 405 and 500. *)
Theorem status_is_assigned req p :
  In (statusCode (fst (snd (onRequest JSON_parse req p)))) [200; 204; 400; 404; 405; 500]%Z.
Proof.
  assert (Hinv : invariant (E := E) status_assigned
            (try_catch (handleRequest JSON_parse req)
               (fun error =>
                  bind (console_error "Error handling request:" error) (fun _ =>
                  bind (set_statusCode 500) (fun _ =>
                  bind (lift (JSON_stringify (error_envelope "Internal server error")))
                    (fun text => res_end text)))))).
  { apply invariant_try_catch; [apply status_assigned_handleRequest|].
    intros e. walk keep_status. }
  specialize (Hinv (fresh_response, p)). unfold onRequest.
  destruct (try_catch _ _ (fresh_response, p)) as [[a|e] st'];
    apply Hinv; unfold status_assigned; cbn; auto.
Qed.

Ltac keep_headers :=
  unfold cors_ok, has_header in *; cbn in *;
  try match goal with |- context [writableEnded ?r] => destruct (writableEnded r) end;
  cbn; rewrite ?lookup_insert_ne by discriminate; auto.

Ltac set_header :=
  let res := fresh "res" in
  let p := fresh "p" in
  let H := fresh "H" in
  intros [res p] H; unfold cors_ok, has_header, open_response, res_setHeader in *;
  cbn in *;
  repeat match goal with H : _ /\ _ |- _ => destruct H end;
  match goal with H : writableEnded _ = false |- _ => rewrite H end;
  cbn; rewrite ?lookup_insert_eq, ?lookup_insert_ne by discriminate; auto.

(** Once the response is open, the preamble sets the three headers and
    nothing after it removes them. *)
Lemma cors_handleRequest req :
  triple (E := E) open_response (handleRequest JSON_parse req) (fun _ => cors_ok) cors_ok.
Proof.
  unfold handleRequest.
  apply triple_bind with
    (Q' := fun _ st => open_response st /\ has_header "Access-Control-Allow-Origin" "*" st);
    [set_header | intros _].
  apply triple_bind with
    (Q' := fun _ st =>
             open_response st /\ has_header "Access-Control-Allow-Origin" "*" st
             /\ has_header "Access-Control-Allow-Methods" "GET, POST, OPTIONS" st);
    [set_header | intros _].
  apply triple_bind with (Q' := fun _ st => cors_ok st); [set_header | intros _].
  as_invariant. walk keep_headers.
Qed.

(** X3. Every response carries the three CORS headers, whatever the
    request and whatever became of it: any origin, the methods GET,
    POST, OPTIONS, the request header Content-Type. *)
Theorem cors_on_every_response req p :
  let res := fst (snd (onRequest JSON_parse req p)) in
  headers res !! "Access-Control-Allow-Origin" = Some "*"
  /\ headers res !! "Access-Control-Allow-Methods" = Some "GET, POST, OPTIONS"
  /\ headers res !! "Access-Control-Allow-Headers" = Some "Content-Type".
Proof.
  assert (Hall : triple (E := E) open_response
            (try_catch (handleRequest JSON_parse req)
               (fun error =>
                  bind (console_error "Error handling request:" error) (fun _ =>
                  bind (set_statusCode 500) (fun _ =>
                  bind (lift (JSON_stringify (error_envelope "Internal server error")))
                    (fun text => res_end text)))))
            (fun _ => cors_ok) cors_ok).
  { apply triple_try_catch with (R' := cors_ok); [apply cors_handleRequest|].
    intros e. as_invariant. walk keep_headers. }
  specialize (Hall (fresh_response, p) eq_refl). unfold onRequest. cbn zeta.
  destruct (try_catch _ _ (fresh_response, p)) as [[a|e] st']; exact Hall.
Qed.

Ltac keep_calls :=
  unfold untouched, ran_once, logged in *; cbn in *; auto.

Lemma ran_once_invoke_tool p0 (tool_name params : JsValue) t :
  find_tool tool_name (registry (mcpServer p0)) = Some t ->
  triple (untouched p0) (invoke_tool t tool_name params)
    (fun _ => ran_once p0) (ran_once p0).
Proof.
  intros Hfind. unfold invoke_tool.
  apply triple_try_catch with (R' := ran_once p0).
  - apply triple_bind with (Q' := fun _ => ran_once p0).
    + intros [res p] (Hinv & Hw & Hsrv). cbn in Hinv, Hw, Hsrv. unfold call_execute.
      rewrite Hw.
      assert (Hran : ran_once p0
                (res, called p t params (snd (execute t params (world p0))))).
      { exists tool_name, params, t. unfold called. cbn. rewrite Hinv. auto. }
      unfold called in Hran.
      destruct (execute t params (world p0)) as [[v|e] w]; exact Hran.
    + intros result. as_invariant. walk keep_calls.
  - intros e. as_invariant. walk keep_calls.
Qed.

Lemma throw_weakened {A} (I K : Store E -> Prop) (m : M E A) :
  invariant I m -> (forall st, I st -> K st) -> triple I m (fun _ => I) K.
Proof. intros Hm HK. apply (triple_weaken I I m (fun _ => I) _ I K Hm); auto. Qed.

Lemma both_weakened {A} (I K : Store E -> Prop) (m : M E A) :
  invariant I m -> (forall st, I st -> K st) -> triple I m (fun _ => K) K.
Proof. intros Hm HK. apply (triple_weaken I I m (fun _ => I) _ I K Hm); auto. Qed.

Ltac keep_either :=
  match goal with H : _ \/ _ |- _ => destruct H; [left | right] end; keep_calls.

Lemma calls_handleToolCallRequest p0 (request : JsValue) :
  triple (untouched p0) (handleToolCallRequest request)
    (fun _ st => untouched p0 st \/ ran_once p0 st)
    (fun st => untouched p0 st \/ ran_once p0 st).
Proof.
  unfold handleToolCallRequest.
  apply triple_bind with (Q' := fun _ => untouched p0);
    [apply throw_weakened; [apply invariant_lift | auto] | intros tool_name].
  apply triple_bind with (Q' := fun _ => untouched p0);
    [apply throw_weakened; [apply invariant_lift | auto] | intros params].
  apply triple_bind with
    (Q' := fun ts st => untouched p0 st /\ ts = registry (mcpServer p0)).
  { intros [res p] Hst. cbn. split; [exact Hst|]. destruct Hst as (_ & _ & Hsrv).
    cbn in Hsrv. rewrite Hsrv. reflexivity. }
  intros ts. destruct (find_tool tool_name ts) as [t|] eqn:Hfind.
  - intros st [Hst ->].
    pose proof (ran_once_invoke_tool p0 tool_name params t Hfind st Hst) as Hrun.
    destruct (invoke_tool t tool_name params st) as [[a|e] st']; auto.
  - intros st [Hst _]. revert st Hst.
    apply (both_weakened (untouched p0)); [walk keep_calls | auto].
Qed.

Lemma calls_handleRequest p0 req :
  triple (untouched p0) (handleRequest JSON_parse req)
    (fun _ st => untouched p0 st \/ ran_once p0 st)
    (fun st => untouched p0 st \/ ran_once p0 st).
Proof.
  unfold handleRequest.
  do 3 (apply triple_bind with (Q' := fun _ => untouched p0);
        [apply throw_weakened; [walk keep_calls | auto] | intros _]).
  destruct (String.eqb (method req) "OPTIONS");
    [apply both_weakened; [walk keep_calls | auto]|].
  destruct (negb (String.eqb (method req) "POST"));
    [apply both_weakened; [walk keep_calls | auto]|].
  apply triple_bind with (Q' := fun _ => untouched p0);
    [apply throw_weakened; [apply invariant_read_body | auto] | intros body].
  apply triple_try_catch with (R' := fun st => untouched p0 st \/ ran_once p0 st).
  - apply triple_bind with (Q' := fun _ => untouched p0);
      [apply throw_weakened; [apply invariant_lift | auto] | intros request].
    apply triple_bind with (Q' := fun _ => untouched p0);
      [apply throw_weakened; [apply invariant_lift | auto] | intros ty].
    destruct (strict_equals_string "capabilities" ty);
      [apply both_weakened; [walk keep_calls | auto]|].
    destruct (strict_equals_string "tool_call" ty);
      [apply calls_handleToolCallRequest|].
    apply both_weakened; [walk keep_calls | auto].
  - intros e. as_invariant. walk keep_either.
Qed.


(** The listener of index.ts, as a computation, answers. *)
Lemma answers_listener req :
  answers (E := E)
    (try_catch (handleRequest JSON_parse req)
       (fun error =>
          bind (console_error "Error handling request:" error) (fun _ =>
          bind (set_statusCode 500) (fun _ =>
          bind (lift (JSON_stringify (error_envelope "Internal server error")))
            (fun text => res_end text))))).
Proof.
  apply answers_try_catch; [apply sends_or_throws_handleRequest|].
  intros e. apply answers_bind; [apply proceeds_console_error | intros _].
  apply answers_bind; [apply proceeds_set_statusCode | intros _].
  apply answers_bind; [apply proceeds_stringify_error | intros text].
  apply answers_res_end.
Qed.


(** [JSON.stringify] throws exactly on the values that hold a BigInt. *)
Lemma unserializable_stringify (v : JsValue) :
  serializable v = false -> JSON_stringify v = Throw bigint_error.
Proof.
  unfold JSON_stringify.
  induction v as [| |[]|repr|z|s|elems IH|props IH] using JsValue_nested_ind;
    cbn [serializable]; intros Hser; try discriminate; try reflexivity.
  - assert (Hitems :
      (fix items (l : list JsValue) : Completion (list string) :=
         match l with
         | [] => Normal []
         | x :: rest =>
             cbind (SerializeJSONProperty x) (fun o =>
             cbind (items rest) (fun r => Normal (default "null" o :: r)))
         end) elems = Throw bigint_error).
    { induction IH as [|x rest Hx _ IHrest]; [discriminate|].
      cbn in Hser. destruct (serializable x) eqn:Hsx.
      - destruct (serializable_stringify x Hsx) as (o & Ho & _).
        unfold JSON_stringify in Ho. rewrite Ho. cbn. rewrite (IHrest Hser). reflexivity.
      - rewrite (Hx eq_refl). reflexivity. }
    cbn. rewrite Hitems. reflexivity.
  - assert (Hmembers :
      (fix members (l : list (string * JsValue)) : Completion (list string) :=
         match l with
         | [] => Normal []
         | (k, x) :: rest =>
             cbind (SerializeJSONProperty x) (fun o =>
             cbind (members rest) (fun r =>
               Normal (match o with
                       | Some s => (QuoteJSONString k +:+ ":" +:+ s) :: r
                       | None => r
                       end)))
         end) props = Throw bigint_error).
    { induction IH as [|[k x] rest Hx _ IHrest]; [discriminate|].
      cbn in Hser, Hx. destruct (serializable x) eqn:Hsx.
      - destruct (serializable_stringify x Hsx) as (o & Ho & _).
        unfold JSON_stringify in Ho. rewrite Ho. cbn. rewrite (IHrest Hser). reflexivity.
      - rewrite (Hx eq_refl). reflexivity. }
    cbn. rewrite Hmembers. reflexivity.
Qed.

(** X6. When [execute] resolves with a value that holds a BigInt, the
    serialisation fails inside the [try] block: the answer is 500 with
    the error ["Error executing tool <name>: Do not know how to
    serialize a BigInt"], the failure is logged as a failure of the
    tool, and the Content-Type header set for the success stays. *)
Theorem unserializable_result_is_tool_error req p (request tool_name params v : JsValue)
    t (w : E) :
  method req = "POST" ->
  failure req = None ->
  JSON_parse (body_text req) = Normal request ->
  Get request "type" = Normal (JString "tool_call") ->
  Get request "tool_name" = Normal tool_name ->
  Get request "parameters" = Normal params ->
  find_tool tool_name (registry (mcpServer p)) = Some t ->
  execute t params (world p) = (Normal v, w) ->
  serializable v = false ->
  handleRequest JSON_parse req (fresh_response, p)
  = (Normal tt,
     (respond 500 json_headers
        (json_error ("Error executing tool " +:+ name t
                     +:+ ": Do not know how to serialize a BigInt")),
      logged (called p t params w) ("Error executing tool " +:+ name t +:+ ":")
        bigint_error)).
Proof.
  intros Hm Hf Hparse Hty Hname Hparams Hfind Hexec Hser.
  destruct (find_tool_some _ _ _ Hfind) as [Htn _].
  assert (Htext : JSON_stringify (JObject [("result", v)]) = Throw bigint_error).
  { apply unserializable_stringify. cbn. rewrite Hser. reflexivity. }
  exec. rewrite Hm, Hf. cbn. rewrite Hparse, Hty. cbn.
  rewrite Hname, Hparams, Hfind, Hexec. cbn. rewrite Htext. subst tool_name.
  reflexivity.
Qed.

Lemma unserializable_schemas (ts : list (McpTool E)) :
  Exists (fun t => serializable (parameters t) = false) ts ->
  forallb serializable (map tool_schema ts) = false.
Proof.
  induction 1 as [t ts Ht | t ts _ IH]; cbn.
  - rewrite Ht. reflexivity.
  - rewrite IH. apply andb_false_r.
Qed.

(** X7. One registered schema that holds a BigInt makes every
    capabilities request fail: the document has no text, the answer is
    400 [{"error":"Invalid request"}] with the Content-Type header
    already set, and no tool is listed. *)
Theorem unserializable_schema_hides_all req p (request : JsValue) :
  method req = "POST" ->
  failure req = None ->
  JSON_parse (body_text req) = Normal request ->
  Get request "type" = Normal (JString "capabilities") ->
  Exists (fun t => serializable (parameters t) = false) (registry (mcpServer p)) ->
  handleRequest JSON_parse req (fresh_response, p)
  = (Normal tt,
     (respond 400 json_headers (json_error "Invalid request"),
      logged p "Error processing request:" bigint_error)).
Proof.
  intros Hm Hf Hparse Hty Hbad.
  assert (Htext : JSON_stringify
            (JObject [("protocol_version", JString PROTOCOL_VERSION);
                      ("capabilities",
                       JObject [("tools",
                                 JArray (map tool_schema (registry (mcpServer p))))])])
          = Throw bigint_error).
  { apply unserializable_stringify. cbn.
    rewrite (unserializable_schemas _ Hbad). reflexivity. }
  exec. rewrite Hm, Hf. cbn. rewrite Hparse, Hty. cbn.
  fold (@tool_schema E). rewrite Htext. reflexivity.
Qed.

(** X8. A POST whose body parses to a value without properties ([null];
    [undefined] for a decoder that gives it) is answered 400
    [{"error":"Invalid request"}]: reading [type] throws inside the
    [try] block, and what it threw goes to the console.  No handler is
    entered. *)
Theorem body_without_properties_is_invalid req p (request : JsValue) :
  method req = "POST" ->
  failure req = None ->
  JSON_parse (body_text req) = Normal request ->
  request = JNull \/ request = JUndefined ->
  exists message,
    Get request "type" = Throw (TypeError message)
    /\ handleRequest JSON_parse req (fresh_response, p)
       = (Normal tt,
          (respond 400 cors_headers (json_error "Invalid request"),
           logged p "Error processing request:" (TypeError message))).
Proof.
  intros Hm Hf Hparse [-> | ->]; eexists; (split; [reflexivity|]);
    exec; rewrite Hm, Hf; cbn; rewrite Hparse; reflexivity.
Qed.

Lemma find_tool_not_string (tool_name : JsValue) (ts : list (McpTool E)) :
  (forall s, tool_name <> JString s) -> find_tool tool_name ts = None.
Proof.
  intros Hns. apply find_tool_none, Forall_forall. intros t _. apply not_eq_sym, Hns.
Qed.

(** X9. The lookup compares with [===]: a [tool_name] that is not a
    string (missing, a number, an array, ...) finds no tool, even when
    its string form is a registered name; when it has a string form the
    answer is 404 ["Tool not found: "] followed by it, and no tool runs. *)
Theorem tool_name_must_be_a_string req p (request tool_name : JsValue) (shown : string) :
  method req = "POST" ->
  failure req = None ->
  JSON_parse (body_text req) = Normal request ->
  Get request "type" = Normal (JString "tool_call") ->
  Get request "tool_name" = Normal tool_name ->
  (forall s, tool_name <> JString s) ->
  ToString tool_name = Normal shown ->
  handleRequest JSON_parse req (fresh_response, p)
  = (Normal tt, (respond 404 cors_headers (json_error ("Tool not found: " +:+ shown)), p)).
Proof.
  intros Hm Hf Hparse Hty Hname Hns Hshown.
  destruct (Get_sibling _ _ _ "parameters" Hty) as [params Hparams].
  exec. rewrite Hm, Hf. cbn. rewrite Hparse, Hty. cbn.
  rewrite Hname, Hparams, (find_tool_not_string _ _ Hns). cbn. rewrite Hshown.
  reflexivity.
Qed.

End Listener.

(** ** The tools *)

Import Tools.

Lemma address_class_alphabet (c : ascii) :
  in_class address_class c = occurs c base58_alphabet.
Proof. destruct c as [[] [] [] [] [] [] [] []]; reflexivity. Qed.

Lemma all_in_class_Forall (s : string) :
  all_in_class address_class s = true
  <-> Forall (fun c => occurs c base58_alphabet = true) (list_ascii_of_string s).
Proof.
  induction s as [|c s IH]; cbn [all_in_class list_ascii_of_string].
  - split; [constructor | reflexivity].
  - rewrite andb_true_iff, IH, address_class_alphabet. split.
    + intros [Hc Hs]. constructor; assumption.
    + intros H. inversion H; subst. auto.
Qed.

(** X11. The address pattern accepts exactly the strings of 32 to 44
    characters drawn from the base58 alphabet: digits and letters
    without [0], [O], [I] and [l]. *)
Theorem address_pattern_spec (s : string) :
  address_pattern s = true
  <-> (32 <= String.length s <= 44)%nat
      /\ Forall (fun c => occurs c base58_alphabet = true) (list_ascii_of_string s).
Proof.
  unfold address_pattern. rewrite !andb_true_iff, all_in_class_Forall.
  rewrite !Nat.leb_le. tauto.
Qed.

(** [ToString] throws one thing only. *)
Lemma ToString_throws (v : JsValue) (e : Thrown) :
  ToString v = Throw e -> e = TypeError "Cannot convert object to primitive value".
Proof.
  revert e.
  induction v as [| |[]|repr|z|s|elems IH|props IH] using JsValue_nested_ind;
    intros e; cbn; try discriminate.
  - induction IH as [|x rest Hx _ IHrest]; [discriminate|].
    destruct (match x with JUndefined | JNull => Normal "" | _ => ToString x end)
      as [sx|ex] eqn:Hhead.
    + cbn. destruct rest as [|y rest']; [discriminate|].
      destruct ((fix join (l : list JsValue) : Completion string :=
                   match l with
                   | [] => Normal ""
                   | x :: rest =>
                       cbind (match x with
                              | JUndefined | JNull => Normal ""
                              | _ => ToString x
                              end)
                         (fun s =>
                            match rest with
                            | [] => Normal s
                            | _ => cbind (join rest) (fun r => Normal (s +:+ "," +:+ r))
                            end)
                   end) (y :: rest')) as [sr|er] eqn:Htail.
      * discriminate.
      * cbn. intros [= <-]. apply IHrest. reflexivity.
    + cbn. intros [= <-]. apply Hx. destruct x; try discriminate; exact Hhead.
  - destruct (own_property "toString" props); [|discriminate]. intros [= <-]. reflexivity.
Qed.

Lemma destructure_sibling (source : string) (v : JsValue) (k k' : string) (x : JsValue) :
  destructure source v k = Normal x -> exists y, Get v k' = Normal y.
Proof. destruct v; cbn; intros H; try discriminate; eauto. Qed.

Lemma destructure_Get (source : string) (v : JsValue) (k : string) (x : JsValue) :
  destructure source v k = Normal x -> Get v k = Normal x.
Proof. destruct v; cbn; intros H; try discriminate; exact H. Qed.

Section ToolProperties.

Local Arguments ToString : simpl never.
Local Arguments address_pattern : simpl never.
Local Arguments JSON_stringify : simpl never.
Local Arguments string_of_Z : simpl never.

Ltac texec :=
  unfold fetchWalletData, rethrow, test_address, isValidSolanaAddress, tbind, tlift,
    tret, ttry, console_log, tool_console_error, cbind; cbn.


Variable JSON_parse : string -> Completion JsValue.

Implicit Types (req : IncomingMessage) (p : Process Runtime).

Lemma MOCK_DATA_serializable (address : string) :
  serializable (JObject [("result",
                          JObject (MOCK_DATA ++ [("wallet_address", JString address)]))])
  = true.
Proof. reflexivity. Qed.

(** X13. Through the server: a tool_call for [fetch_wallet_data] with an
    address the pattern accepts is answered 200 with, as body, the JSON
    text of [{ result: { ...MOCK_DATA, wallet_address } }]; the tool
    printed one line and reported nothing. *)
Theorem fetch_wallet_data_served req p (request params : JsValue) (address : string) :
  method req = "POST" ->
  failure req = None ->
  JSON_parse (body_text req) = Normal request ->
  Get request "type" = Normal (JString "tool_call") ->
  Get request "tool_name" = Normal (JString "fetch_wallet_data") ->
  Get request "parameters" = Normal params ->
  find_tool (JString "fetch_wallet_data") (registry (mcpServer p))
  = Some fetchWalletDataTool ->
  destructure "undefined" params "wallet_address" = Normal (JString address) ->
  address_pattern address = true ->
  exists text,
    JSON_stringify
      (JObject [("result",
                 JObject (MOCK_DATA ++ [("wallet_address", JString address)]))])
    = Normal (Some text)
    /\ handleRequest JSON_parse req (fresh_response, p)
       = (Normal tt,
          (respond 200 json_headers text,
           called p fetchWalletDataTool params
             (printed (world p) ("Fetching data for wallet: " +:+ address)))).
Proof.
  intros Hm Hf Hparse Hty Hname Hparams Hfind Hd Hvalid.
  destruct (serializable_envelope _ (MOCK_DATA_serializable address)) as [text Htext].
  exists text. split; [exact Htext|].
  exec. rewrite Hm, Hf. cbn. rewrite Hparse, Hty. cbn.
  rewrite Hname, Hparams, Hfind. cbn. rewrite Hd. texec.
  unfold ToString. rewrite Hvalid. cbn. cbn in Htext. rewrite Htext. reflexivity.
Qed.

(** X14. Through the server: a tool_call for [fetch_wallet_data] whose
    address has a string form the pattern refuses (a missing address
    reads ["undefined"]) is answered 500 with the error of the tool
    inside the error of the dispatcher; the tool reported the refusal
    and did not announce a fetch. *)
Theorem fetch_wallet_data_refused req p (request params address : JsValue) (s : string) :
  method req = "POST" ->
  failure req = None ->
  JSON_parse (body_text req) = Normal request ->
  Get request "type" = Normal (JString "tool_call") ->
  Get request "tool_name" = Normal (JString "fetch_wallet_data") ->
  Get request "parameters" = Normal params ->
  find_tool (JString "fetch_wallet_data") (registry (mcpServer p))
  = Some fetchWalletDataTool ->
  destructure "undefined" params "wallet_address" = Normal address ->
  ToString address = Normal s ->
  address_pattern s = false ->
  handleRequest JSON_parse req (fresh_response, p)
  = (Normal tt,
     (respond 500 cors_headers
        (json_error
           ("Error executing tool fetch_wallet_data: "
            +:+ "Failed to fetch wallet data: Invalid Solana wallet address")),
      logged
        (called p fetchWalletDataTool params
           (complained (world p) "Error fetching wallet data:" invalid_address))
        "Error executing tool fetch_wallet_data:"
        (ErrorObject "Error" "Failed to fetch wallet data: Invalid Solana wallet address"))).
Proof.
  intros Hm Hf Hparse Hty Hname Hparams Hfind Hd Hs Hvalid.
  exec. rewrite Hm, Hf. cbn. rewrite Hparse, Hty. cbn.
  rewrite Hname, Hparams, Hfind. cbn. rewrite Hd. texec.
  rewrite Hs. cbn. rewrite Hvalid. reflexivity.
Qed.

(** *** execute_action *)

Variable multiply : JsValue -> string -> Completion JsValue.

Local Arguments Get : simpl never.
Local Arguments destructure : simpl never.
Local Arguments strict_equals_string : simpl never.

(** X15. [execute_action] checks the address first: when its string form
    is not one the pattern accepts, the tool rejects with
    ["Failed to execute action: Invalid Solana wallet address"] whatever
    the action type and its parameters; no transaction is simulated
    (the clock is not read, nothing is drawn, nothing is printed). *)
Theorem execute_action_checks_address (params action_type address : JsValue)
    (s : string) (rt : Runtime) :
  destructure "undefined" params "action_type" = Normal action_type ->
  Get params "wallet_address" = Normal address ->
  ToString address = Normal s ->
  address_pattern s = false ->
  execute (executeActionsTool multiply) params rt
  = (Throw (ErrorObject "Error" "Failed to execute action: Invalid Solana wallet address"),
     complained rt "Error executing action:" invalid_address).
Proof.
  intros Hd Haddr Hs Hvalid.
  destruct (destructure_sibling _ _ _ "parameters" _ Hd) as [parameters Hp].
  cbn. rewrite Hd. texec. rewrite Hp, Haddr. texec. rewrite Hs. texec. rewrite Hvalid.
  reflexivity.
Qed.

(** X16. With an accepted address, an action type that is none of the
    strings [stake], [unstake], [swap], [sell_nft] is refused by name:
    ["Failed to execute action: Unsupported action type: <type>"], and no
    transaction is simulated. *)
Theorem execute_action_unsupported (params action_type address : JsValue)
    (s shown : string) (rt : Runtime) :
  destructure "undefined" params "action_type" = Normal action_type ->
  Get params "wallet_address" = Normal address ->
  ToString address = Normal s ->
  address_pattern s = true ->
  Forall (fun known => action_type <> JString (fst known)) action_prefixes ->
  ToString action_type = Normal shown ->
  execute (executeActionsTool multiply) params rt
  = (Throw (ErrorObject "Error"
              ("Failed to execute action: Unsupported action type: " +:+ shown)),
     complained rt "Error executing action:"
       (ErrorObject "Error" ("Unsupported action type: " +:+ shown))).
Proof.
  intros Hd Haddr Hs Hvalid Hnone Hshown.
  destruct (destructure_sibling _ _ _ "parameters" _ Hd) as [parameters Hp].
  unfold action_prefixes in Hnone.
  repeat match goal with H : Forall _ (_ :: _) |- _ => inversion H; subst; clear H end.
  cbn [fst] in *.
  cbn. rewrite Hd. texec. rewrite Hp, Haddr. texec. rewrite Hs. texec. rewrite Hvalid.
  cbn. unfold run_action.
  rewrite !strict_equals_string_false by assumption.
  texec. rewrite Hshown. reflexivity.
Qed.

Ltac branches :=
  repeat match goal with
         | |- context [match ?c with Normal _ => _ | Throw _ => _ end] =>
             destruct c; cbn
         end.

Lemma new_transaction_id_run (prefix : string) (rt : Runtime) :
  exists rt',
    new_transaction_id prefix rt = (Normal (next_transaction_id prefix rt), rt')
    /\ simulated_once rt rt' /\ stdout rt' = stdout rt.
Proof. eexists. split; [reflexivity|]. unfold simulated_once. cbn. auto 10. Qed.

Ltac resolved :=
  intros H; unfold tbind, tlift, console_log in H;
  repeat match type of H with
         | context [match ?c with Normal _ => _ | Throw _ => _ end] =>
             destruct c; cbn in H; try discriminate H
         end;
  unfold new_transaction_id, tbind, Date_now, random_million, tret in H; cbn in H;
  repeat match type of H with
         | context [match ?c with Normal _ => _ | Throw _ => _ end] =>
             destruct c; cbn in H; try discriminate H
         end;
  injection H as <- <-; eexists; split; [reflexivity|];
  unfold simulated_once; cbn; auto 10.

Lemma stake_resolved (parameters address v : JsValue) (rt rt' : Runtime) :
  executeStakeAction parameters address rt = (Normal v, rt') ->
  exists details,
    v = transaction (next_transaction_id "stake" rt) details /\ simulated_once rt rt'.
Proof. unfold executeStakeAction. resolved. Qed.

Lemma unstake_resolved (parameters address v : JsValue) (rt rt' : Runtime) :
  executeUnstakeAction parameters address rt = (Normal v, rt') ->
  exists details,
    v = transaction (next_transaction_id "unstake" rt) details /\ simulated_once rt rt'.
Proof. unfold executeUnstakeAction. resolved. Qed.

Lemma swap_resolved (parameters address v : JsValue) (rt rt' : Runtime) :
  executeSwapAction multiply parameters address rt = (Normal v, rt') ->
  exists details,
    v = transaction (next_transaction_id "swap" rt) details /\ simulated_once rt rt'.
Proof. unfold executeSwapAction. resolved. Qed.

Lemma sell_nft_resolved (parameters address v : JsValue) (rt rt' : Runtime) :
  executeSellNftAction parameters address rt = (Normal v, rt') ->
  exists details,
    v = transaction (next_transaction_id "list_nft" rt) details /\ simulated_once rt rt'.
Proof. unfold executeSellNftAction. resolved. Qed.

Lemma rethrow_throws (label prefix : string) (error : Thrown) (rt : Runtime) :
  exists e rt', rethrow label prefix error rt = (Throw e, rt').
Proof. texec. destruct (error_text error); eauto. Qed.

Lemma run_action_resolved (action_type parameters address v : JsValue) (rt rt' : Runtime) :
  run_action multiply action_type parameters address rt = (Normal v, rt') ->
  exists action prefix details,
    action_type = JString action
    /\ In (action, prefix) action_prefixes
    /\ v = transaction (next_transaction_id prefix rt) details
    /\ simulated_once rt rt'.
Proof.
  unfold run_action, action_prefixes.
  destruct (strict_equals_string "stake" action_type) eqn:H1.
  { apply strict_equals_string_true in H1. intros H.
    destruct (stake_resolved _ _ _ _ _ H) as (d & -> & Hsim).
    exists "stake", "stake", d. cbn. auto 10. }
  destruct (strict_equals_string "unstake" action_type) eqn:H2.
  { apply strict_equals_string_true in H2. intros H.
    destruct (unstake_resolved _ _ _ _ _ H) as (d & -> & Hsim).
    exists "unstake", "unstake", d. cbn. auto 10. }
  destruct (strict_equals_string "swap" action_type) eqn:H3.
  { apply strict_equals_string_true in H3. intros H.
    destruct (swap_resolved _ _ _ _ _ H) as (d & -> & Hsim).
    exists "swap", "swap", d. cbn. auto 10. }
  destruct (strict_equals_string "sell_nft" action_type) eqn:H4.
  { apply strict_equals_string_true in H4. intros H.
    destruct (sell_nft_resolved _ _ _ _ _ H) as (d & -> & Hsim).
    exists "sell_nft", "list_nft", d. cbn. auto 10. }
  texec. destruct (ToString action_type); discriminate.
Qed.

(** X17. Whenever [execute_action] resolves, the address had a string
    form the pattern accepts, the action type was one of the strings
    [stake], [unstake], [swap], [sell_nft], exactly one transaction was
    simulated, and the result is
    [{ success: true, action_type, transaction_id, status: "confirmed", details }]
    whose identifier is the prefix of the action ([list_nft] for
    [sell_nft]), the clock reading and the number drawn, joined by
    underscores. *)
Theorem execute_action_resolutions (params v : JsValue) (rt rt' : Runtime) :
  execute (executeActionsTool multiply) params rt = (Normal v, rt') ->
  exists (action prefix : string) (address : JsValue) (s : string)
         (details : list (string * JsValue)),
    Get params "action_type" = Normal (JString action)
    /\ In (action, prefix) action_prefixes
    /\ Get params "wallet_address" = Normal address
    /\ ToString address = Normal s
    /\ address_pattern s = true
    /\ v = JObject [("success", JBool true);
                    ("action_type", JString action);
                    ("transaction_id", JString (next_transaction_id prefix rt));
                    ("status", JString "confirmed");
                    ("details", JObject details)]
    /\ simulated_once rt rt'.
Proof.
  cbn. unfold tbind at 1, tlift at 1.
  destruct (destructure "undefined" params "action_type") as [action_type|] eqn:Hd;
    [|discriminate].
  apply destructure_Get in Hd.
  unfold tbind at 1, tlift at 1.
  destruct (Get params "parameters") as [parameters|]; [|discriminate].
  unfold tbind at 1, tlift at 1.
  destruct (Get params "wallet_address") as [address|] eqn:Haddr; [|discriminate].
  unfold ttry.
  match goal with |- context [match ?body with (c, st) => _ end] =>
    destruct body as [[result|e] rt1] eqn:Hbody
  end.
  2: { destruct (rethrow_throws "Error executing action:" "Failed to execute action" e rt1)
         as (e' & rt2 & ->). discriminate. }
  intros [= <- <-]. revert Hbody.
  unfold isValidSolanaAddress, test_address, tbind at 1, tlift at 1, cbind.
  destruct (ToString address) as [s|] eqn:Hs; [|discriminate].
  destruct (address_pattern s) eqn:Hvalid; cbn [negb]; [|discriminate].
  unfold tbind at 1.
  destruct (run_action multiply action_type parameters address rt) as [[r|] rt2] eqn:Hrun;
    [|discriminate].
  destruct (run_action_resolved _ _ _ _ _ _ Hrun) as (action & prefix & details & -> & Hin & -> & Hsim).
  unfold transaction, Get. texec. intros [= <- <-].
  exists action, prefix, address, s, details. auto 10.
Qed.

(** *** The registry of index.ts *)

Variables cluster_wallet get_portfolio_insights get_rebalancing_advice
  : JsValue -> Runtime -> Completion JsValue * Runtime.

(** X18. In the registry index.ts builds, the five names are pairwise
    distinct, so the lookup of a tool's name finds that very tool: the
    rule that the first of two tools of a name wins hides none of them;
    and no schema holds a BigInt, so the capabilities document has a
    text. *)
Theorem registered_tools_are_reachable :
  let ts := registered_tools multiply cluster_wallet get_portfolio_insights
              get_rebalancing_advice in
  NoDup (map name ts)
  /\ Forall (fun t => find_tool (JString (name t)) ts = Some t) ts
  /\ Forall (fun t => serializable (parameters t) = true) ts.
Proof.
  cbn zeta. split; [|split].
  - unfold registered_tools. cbn. apply (bool_decide_unpack _). vm_compute. exact I.
  - repeat constructor.
  - repeat constructor.
Qed.

(** X19. On the server index.ts builds, a capabilities request always
    succeeds: status 200 and, as body, the text of the document listing
    the five tools in the order of registration. *)
Theorem registered_tools_are_listed req p (request : JsValue) (config : McpServerConfig) :
  mcpServer p
  = createMcpServer
      {| tools := registered_tools multiply cluster_wallet get_portfolio_insights
                    get_rebalancing_advice;
         config := config |} ->
  method req = "POST" ->
  failure req = None ->
  JSON_parse (body_text req) = Normal request ->
  Get request "type" = Normal (JString "capabilities") ->
  exists text,
    JSON_stringify
      (JObject [("protocol_version", JString "0.1");
                ("capabilities",
                 JObject [("tools",
                           JArray (map tool_schema
                                     [walletClusteringTool cluster_wallet;
                                      portfolioInsightsTool get_portfolio_insights;
                                      rebalancingAdviceTool get_rebalancing_advice;
                                      executeActionsTool multiply;
                                      fetchWalletDataTool]))])])
    = Normal (Some text)
    /\ handleRequest JSON_parse req (fresh_response, p)
       = (Normal tt, (respond 200 json_headers text, p)).
Proof.
  intros Hsrv Hm Hf Hparse Hty.
  destruct (serializable_envelope
              [("protocol_version", JString "0.1");
               ("capabilities",
                JObject [("tools",
                          JArray (map tool_schema
                                    [walletClusteringTool cluster_wallet;
                                     portfolioInsightsTool get_portfolio_insights;
                                     rebalancingAdviceTool get_rebalancing_advice;
                                     executeActionsTool multiply;
                                     fetchWalletDataTool]))])])
    as [text Htext]; [reflexivity|].
  exists text. split; [exact Htext|].
  exec. rewrite Hm, Hf. cbn. rewrite Hparse, Hty. unfold strict_equals_string. cbn.
  rewrite Hsrv. cbn.
  match goal with
  | |- context [JSON_stringify ?d] =>
      replace (JSON_stringify d) with (Normal (A := option string) (Some text))
        by (rewrite <- Htext; reflexivity)
  end.
  reflexivity.
Qed.

End ToolProperties.

(** ** The further properties at work *)

Import Demo.

(** X2 at work: a POST cut short by the client. *)
Lemma aborted_body_witness :
  handleRequest decode cut_short (fresh_response, server0)
  = (Throw (ErrorObject "Error" "aborted"),
     ({| statusCode := 200; headers := cors_headers; writableEnded := false;
         payload := "" |}, server0))
  /\ onRequest decode cut_short server0
     = (Normal tt,
        (respond 500 cors_headers (json_error "Internal server error"),
         logged server0 "Error handling request:" (ErrorObject "Error" "aborted"))).
Proof. apply (aborted_body_is_internal_error decode cut_short); reflexivity. Defined.

(** X6 at work: the balance in lamports. *)
Lemma unserializable_result_witness :
  handleRequest decode (post (text_of (tool_call (JString "balance") JNull)))
    (fresh_response, booted [balance])
  = (Normal tt,
     (respond 500 json_headers
        (json_error ("Error executing tool " +:+ name balance
                     +:+ ": Do not know how to serialize a BigInt")),
      logged (called (booted [balance]) balance JNull 0)
        ("Error executing tool " +:+ name balance +:+ ":") bigint_error)).
Proof.
  apply (unserializable_result_is_tool_error decode _ _
           (tool_call (JString "balance") JNull) (JString "balance") JNull
           (JBigInt 5000000000));
    reflexivity.
Defined.

(** X7 at work: one schema with a BigInt bound among two tools. *)
Lemma unserializable_schema_witness :
  handleRequest decode (post (text_of capabilities_request))
    (fresh_response, booted [echo; transfer])
  = (Normal tt,
     (respond 400 json_headers (json_error "Invalid request"),
      logged (booted [echo; transfer]) "Error processing request:" bigint_error)).
Proof.
  apply (unserializable_schema_hides_all decode _ _ capabilities_request);
    try reflexivity.
  apply Exists_cons_tl, Exists_cons_hd. reflexivity.
Defined.

(** X8 at work: the body [null]. *)
Lemma body_without_properties_witness :
  exists message,
    Get JNull "type" = Throw (TypeError message)
    /\ handleRequest decode (post "null") (fresh_response, booted [echo])
       = (Normal tt,
          (respond 400 cors_headers (json_error "Invalid request"),
           logged (booted [echo]) "Error processing request:" (TypeError message))).
Proof.
  apply (body_without_properties_is_invalid decode (post "null")); try reflexivity.
  left. reflexivity.
Defined.

(** X9 at work: the registered name inside an array. *)
Lemma tool_name_in_an_array_witness :
  handleRequest decode (post (text_of (tool_call (JArray [JString "echo"]) x1)))
    (fresh_response, booted [echo])
  = (Normal tt,
     (respond 404 cors_headers (json_error "Tool not found: echo"), booted [echo])).
Proof.
  apply (tool_name_must_be_a_string decode _ _
           (tool_call (JArray [JString "echo"]) x1) (JArray [JString "echo"]));
    try reflexivity.
  intros s. discriminate.
Defined.


(** X13 at work: the address of the system program. *)
Lemma fetch_wallet_data_served_witness :
  exists text,
    JSON_stringify
      (JObject [("result",
                 JObject (MOCK_DATA ++ [("wallet_address", JString system_program)]))])
    = Normal (Some text)
    /\ handleRequest decode
         (request (call "fetch_wallet_data" (wallet (JString system_program))))
         (fresh_response, server0)
       = (Normal tt,
          (respond 200 json_headers text,
           called server0 fetchWalletDataTool (wallet (JString system_program))
             (printed (world server0)
                ("Fetching data for wallet: " +:+ system_program)))).
Proof.
  apply (fetch_wallet_data_served decode _ _
           (call "fetch_wallet_data" (wallet (JString system_program))));
    reflexivity.
Defined.

(** X14 at work: an address with a zero in it. *)
Lemma fetch_wallet_data_refused_witness :
  handleRequest decode (request (call "fetch_wallet_data" (wallet (JString "0x00"))))
    (fresh_response, server0)
  = (Normal tt,
     (respond 500 cors_headers
        (json_error
           ("Error executing tool fetch_wallet_data: "
            +:+ "Failed to fetch wallet data: Invalid Solana wallet address")),
      logged
        (called server0 fetchWalletDataTool (wallet (JString "0x00"))
           (complained (world server0) "Error fetching wallet data:" invalid_address))
        "Error executing tool fetch_wallet_data:"
        (ErrorObject "Error" "Failed to fetch wallet data: Invalid Solana wallet address"))).
Proof.
  apply (fetch_wallet_data_refused decode _ _
           (call "fetch_wallet_data" (wallet (JString "0x00")))
           (wallet (JString "0x00")) (JString "0x00") "0x00");
    reflexivity.
Defined.

(** X15 at work: a stake order for an address that is too short. *)
Lemma execute_action_checks_address_witness :
  execute (executeActionsTool times)
    (JObject [("action_type", JString "stake"); ("wallet_address", JString "abc")])
    runtime0
  = (Throw (ErrorObject "Error" "Failed to execute action: Invalid Solana wallet address"),
     complained runtime0 "Error executing action:" invalid_address).
Proof.
  apply (execute_action_checks_address times _ (JString "stake") (JString "abc") "abc");
    reflexivity.
Defined.

(** X16 at work: an order to mint. *)
Lemma execute_action_unsupported_witness :
  execute (executeActionsTool times) mint_order runtime0
  = (Throw (ErrorObject "Error"
              ("Failed to execute action: Unsupported action type: " +:+ "mint")),
     complained runtime0 "Error executing action:"
       (ErrorObject "Error" ("Unsupported action type: " +:+ "mint"))).
Proof.
  apply (execute_action_unsupported times mint_order (JString "mint")
           (JString system_program) system_program "mint");
    try reflexivity.
  repeat constructor; discriminate.
Defined.

(** X17 at work: a stake order that goes through. *)
Lemma execute_action_resolutions_witness :
  exists (action prefix : string) (address : JsValue) (s : string)
         (details : list (string * JsValue)),
    Get stake_order "action_type" = Normal (JString action)
    /\ In (action, prefix) action_prefixes
    /\ Get stake_order "wallet_address" = Normal address
    /\ ToString address = Normal s
    /\ address_pattern s = true
    /\ fst (execute (executeActionsTool times) stake_order runtime0)
       = Normal (JObject [("success", JBool true);
                          ("action_type", JString action);
                          ("transaction_id", JString (next_transaction_id prefix runtime0));
                          ("status", JString "confirmed");
                          ("details", JObject details)])
    /\ simulated_once runtime0 (snd (execute (executeActionsTool times) stake_order runtime0)).
Proof.
  destruct (execute_action_resolutions times stake_order _ runtime0 _ eq_refl)
    as (action & prefix & address & s & details & H1 & H2 & H3 & H4 & H5 & H6 & H7).
  exists action, prefix, address, s, details.
  rewrite <- H6. repeat split; assumption.
Defined.

Example stake_order_identifier :
  Get (match fst (execute (executeActionsTool times) stake_order runtime0) with
       | Normal v => v
       | Throw _ => JUndefined
       end) "transaction_id"
  = Normal (JString "stake_1700000000000_424242").
Proof. vm_compute. reflexivity. Qed.

(** X19 at work: the server of index.ts lists its tools. *)
Lemma registered_tools_are_listed_witness :
  exists text,
    handleRequest decode (request (JObject [("type", JString "capabilities")]))
      (fresh_response, server0)
    = (Normal tt, (respond 200 json_headers text, server0)).
Proof.
  destruct (registered_tools_are_listed decode times idle idle idle
              (request (JObject [("type", JString "capabilities")])) server0
              (JObject [("type", JString "capabilities")])
              {| openaiApiKey := "key"; rpcUrl := "https://api.mainnet-beta.solana.com";
                 solanaPrivateKey := "secret" |})
    as (text & _ & Hrun); try reflexivity.
  exists text. exact Hrun.
Defined.
